(** * hanasu: backend/ocr_processor.py

    A shallow embedding of the OCR command-line script and the properties
    of its orchestration contract.

    Modelling conventions.
    - A Python [str] is the list of its Unicode code points.
    - A Python [float] is modelled by the rational number that a finite
      double denotes.  The subtraction of two doubles is the exact
      difference rounded to the nearest double, ties to even ([fsub]);
      an overflow to infinity is not modelled.  [round(x, n)] and the
      format [:.3f] are modelled by their decimal result, the
      round-half-even of the exact value of [x] at [n] digits (for [round]
      CPython returns the double nearest to that decimal).
    - A dict is an association list in insertion order, which is the order
      [json.dumps] emits.
    - The OCR engine and the wall clock are the environment: the engine is
      a pair of functions that return a value or raise, the clock a sequence
      of readings.  Output and engine calls are logged in the [world].
    - [print] raises [UnicodeEncodeError] when the encoding of stdout
      cannot encode a code point of the line; every encoding is taken to
      encode ASCII.  Other failures of [print] (a closed pipe) and
      interrupts that arrive outside the engine calls are not modelled.
    - The text of the progress lines (f-string formatting) is modelled as
      far as its code points above ASCII: each [print] call is logged with
      the data it prints. *)

From Stdlib Require Import ZArith NArith QArith Qabs List String Ascii Bool Lia.
Import ListNotations.

Local Open Scope Z_scope.

(** ** Python values *)

Module Py.

Definition str := list N.

Definition float := Q.

(** The code points of an ASCII literal of the source. *)
Definition lit (s : string) : str :=
  map N_of_ascii (list_ascii_of_string s).

#[local] Unset Elimination Schemes.
Inductive value :=
| VStr (s : str)
| VInt (z : Z)
| VFloat (q : float)
| VList (l : list value).
#[local] Set Elimination Schemes.

Definition dict := list (string * value).

Fixpoint get (d : dict) (k : string) : option value :=
  match d with
  | [] => None
  | (k', v) :: d' => if String.eqb k' k then Some v else get d' k
  end.

Definition has_key (d : dict) (k : string) : bool :=
  match get d k with Some _ => true | None => false end.

(** *** Exceptions

    [except Exception] matches the instances of [Exception] only;
    [KeyboardInterrupt] and [SystemExit] derive from [BaseException]
    directly.  [PyException msg] stands for any instance of [Exception],
    [msg] being [str(e)]. *)
Inductive exn :=
| PyException (msg : str)
| KeyboardInterrupt
| SystemExit (code : Z).

Definition is_Exception (e : exn) : bool :=
  match e with PyException _ => true | _ => false end.

Inductive res (A : Type) :=
| Ret (a : A)
| Raise (e : exn).
Arguments Ret {A} a.
Arguments Raise {A} e.

(** *** str.split(sep) for a one-character separator *)
Fixpoint split (sep : N) (s : str) : list str :=
  match s with
  | [] => [[]]
  | c :: s' =>
      if N.eqb c sep then [] :: split sep s'
      else match split sep s' with
           | [] => [[c]]
           | h :: t => (c :: h) :: t
           end
  end.

(** *** sep.join(l) *)
Fixpoint join (sep : str) (l : list str) : str :=
  match l with
  | [] => []
  | [x] => x
  | x :: rest => x ++ sep ++ join sep rest
  end.

(** *** str.strip()

    The code points for which [str.isspace] holds. *)
Definition isspace (c : N) : bool :=
  ((9 <=? c) && (c <=? 13) ||
   (28 <=? c) && (c <=? 32) ||
   (c =? 133) || (c =? 160) || (c =? 5760) ||
   (8192 <=? c) && (c <=? 8202) ||
   (c =? 8232) || (c =? 8233) || (c =? 8239) || (c =? 8287) ||
   (c =? 12288))%N.

Fixpoint lstrip (s : str) : str :=
  match s with
  | [] => []
  | c :: s' => if isspace c then lstrip s' else s
  end.

Definition rstrip (s : str) : str := rev (lstrip (rev s)).

Definition strip (s : str) : str := lstrip (rstrip s).

(** *** round(x, ndigits) *)
Definition round_half_even (q : Q) : Z :=
  let n := Qnum q in
  let d := Zpos (Qden q) in
  let f := n / d in
  match (2 * (n mod d)) ?= d with
  | Lt => f
  | Gt => f + 1
  | Eq => if Z.even f then f else f + 1
  end.

Fixpoint scale (ndigits : nat) : positive :=
  match ndigits with
  | O => 1%positive
  | S n => (10 * scale n)%positive
  end.

Definition round (x : float) (ndigits : nat) : float :=
  round_half_even (x * (Zpos (scale ndigits) # 1)) # scale ndigits.

(** A number with at most [ndigits] decimal places. *)
Definition has_decimals (ndigits : nat) (x : float) : Prop :=
  exists k : Z, x == k # scale ndigits.

(** *** The subtraction of doubles

    [to_double q] is the double nearest to [q], ties to even: 53 bits of
    mantissa above the exponent -1074 of the subnormal numbers. *)
Definition pow2 (e : Z) : Q :=
  if 0 <=? e then inject_Z (2 ^ e) else 1 # Z.to_pos (2 ^ (- e)).

Definition ilog2 (a : Q) : Z :=
  let e := Z.log2 (Qnum a) - Z.log2 (Zpos (Qden a)) in
  if Qle_bool (pow2 e) a then e else e - 1.

Definition to_double (q : Q) : float :=
  let a := Qabs q in
  let e := Z.max (ilog2 a - 52) (-1074) in
  let m := round_half_even (a / pow2 e) in
  let r := Qred (inject_Z m * pow2 e) in
  if Qnum q <? 0 then (- r)%Q else r.

Definition fsub (x y : float) : float := to_double (x - y).

(** *** json.dumps

    Strings are escaped as [json.encoder] does: with [ensure_ascii] every
    code point outside the printable ASCII range becomes a [\uXXXX] escape
    (a surrogate pair above the BMP); without it only the quote, the
    backslash and the control characters are escaped.  The digits of
    numbers ([int.__repr__], [float.__repr__]) are not modelled: a number is
    one piece of the output. *)
Definition hex_digit (n : N) : N :=
  (if n <? 10 then 48 + n else 87 + n)%N.

Definition u_escape (c : N) : str :=
  [92; 117;
   hex_digit (c / 4096 mod 16); hex_digit (c / 256 mod 16);
   hex_digit (c / 16 mod 16); hex_digit (c mod 16)]%N.

Definition escape_char (ensure_ascii : bool) (c : N) : str :=
  (if c =? 34 then [92; 34]
   else if c =? 92 then [92; 92]
   else if c =? 10 then [92; 110]
   else if c =? 13 then [92; 114]
   else if c =? 9 then [92; 116]
   else if c =? 12 then [92; 102]
   else if c =? 8 then [92; 98]
   else if c <? 32 then u_escape c
   else if ensure_ascii && (126 <? c) then
     if c <? 65536 then u_escape c
     else
       let n := c - 65536 in
       u_escape (N.lor 55296 (N.land (N.shiftr n 10) 1023)) ++
       u_escape (N.lor 56320 (N.land n 1023))
   else [c])%N.

Definition encode_string (ensure_ascii : bool) (s : str) : str :=
  [34%N] ++ flat_map (escape_char ensure_ascii) s ++ [34%N].

Inductive piece :=
| Chars (s : str)
| IntRepr (z : Z)
| FloatRepr (q : float).

Fixpoint intercalate {A} (sep : list A) (l : list (list A)) : list A :=
  match l with
  | [] => []
  | [x] => x
  | x :: rest => x ++ sep ++ intercalate sep rest
  end.

Fixpoint dumps_value (ensure_ascii : bool) (v : value) : list piece :=
  match v with
  | VStr s => [Chars (encode_string ensure_ascii s)]
  | VInt z => [IntRepr z]
  | VFloat q => [FloatRepr q]
  | VList l =>
      [Chars (lit "[")] ++
      intercalate [Chars (lit ", ")] (map (dumps_value ensure_ascii) l) ++
      [Chars (lit "]")]
  end.

Definition dumps_item (ensure_ascii : bool) (kv : string * value) : list piece :=
  [Chars (encode_string ensure_ascii (lit (fst kv))); Chars (lit ": ")] ++
  dumps_value ensure_ascii (snd kv).

Definition dumps (ensure_ascii : bool) (d : dict) : list piece :=
  [Chars (lit "{")] ++
  intercalate [Chars (lit ", ")] (map (dumps_item ensure_ascii) d) ++
  [Chars (lit "}")].

(** The characters of a serialised text, numbers left out. *)
Definition chars_of (ps : list piece) : str :=
  flat_map (fun p => match p with Chars s => s | _ => [] end) ps.

(** The code points from U+0080 on. *)
Definition non_ascii (c : N) : bool := (127 <? c)%N.

(** The strings of a value, in the order [dumps] writes them. *)
Fixpoint value_strings (v : value) : list str :=
  match v with
  | VStr s => [s]
  | VList l => flat_map value_strings l
  | _ => []
  end.

Definition dict_strings (d : dict) : list str :=
  flat_map (fun kv => lit (fst kv) :: value_strings (snd kv)) d.

Definition keys (d : dict) : list string := map fst d.

(** [len(v)] *)
Definition len (v : value) : option Z :=
  match v with
  | VStr s => Some (Z.of_nat (List.length s))
  | VList l => Some (Z.of_nat (List.length l))
  | _ => None
  end.

(** White space at the ends of a string, the sum of the lengths of a list
    of strings, and the code points that are not control characters. *)
Definition starts_with_space (s : str) : bool :=
  match s with
  | [] => false
  | c :: _ => isspace c
  end.

Definition ends_with_space (s : str) : bool := starts_with_space (rev s).

Fixpoint total_length (l : list str) : nat :=
  match l with
  | [] => 0
  | x :: rest => List.length x + total_length rest
  end.

Definition no_control (c : N) : bool := (32 <=? c)%N.

End Py.

(** ** The environment and the effects of the script *)

Module Ocr.
Import Py.

(** A detection as [readtext] returns it: [(bbox, text, confidence)]. *)
Definition bbox := list (Z * Z).
Definition detection := (bbox * str * float)%type.

(** The engine: [easyocr.Reader(lang_list, gpu=...)] and
    [reader.readtext(image_path)], each returning or raising. *)
Record Engine (reader : Type) := {
  Reader : list str -> bool -> res reader;
  readtext : reader -> str -> res (list detection)
}.
Arguments Reader {reader} _ _ _.
Arguments readtext {reader} _ _ _.

(** The [print] calls of the script, each with the data it prints; the
    confidence of [TextLine] is the decimal that [:.3f] renders. *)
Inductive progress :=
| Starting (image_path : str)
| Initializing (lang_list : list str)
| Initialized
| Processing
| Completed (found : nat)
| TextLine (i : nat) (text : str) (confidence : float)
| TotalTime (processing_time : float)
| ErrorDuring (msg : str).

Inductive out_line :=
| Progress (p : progress)
| Json (ensure_ascii : bool) (d : dict).

Inductive engine_call :=
| CallReader (lang_list : list str) (gpu : bool)
| CallReadtext (image_path : str).

(** The console of the process: the code points above ASCII that the
    encoding of stdout can encode, the message of the [UnicodeEncodeError]
    that [print] raises for a line it cannot encode, and [str.isprintable],
    the table by which [repr] writes a code point as it is or escaped. *)
Record Console := {
  encodes : N -> bool;
  encode_error : out_line -> str;
  isprintable : N -> bool
}.

Record world := {
  stdout : list out_line;
  engine_calls : list engine_call;
  clock_reads : nat;
  console : Console
}.

(** The data a line writes as it is; the rest of the line is ASCII.  An
    f-string writes a [str] as it is, and a list of [str] by [repr], which
    escapes what is not printable. *)
Definition raw_text (c : Console) (l : out_line) : str :=
  match l with
  | Progress (Starting image_path) => image_path
  | Progress (Initializing lang_list) =>
      filter (isprintable c) (List.concat lang_list)
  | Progress (TextLine _ text _) => text
  | Progress (ErrorDuring msg) => msg
  | Progress _ => []
  | Json ensure_ascii d => chars_of (dumps ensure_ascii d)
  end.

Definition encodable (c : Console) (s : str) : bool :=
  forallb (encodes c) (filter non_ascii s).

Definition writable (c : Console) (l : out_line) : bool :=
  encodable c (raw_text c l).

(** A UTF-8 console, which encodes every code point but the surrogates, and
    an ASCII one.  Of the table of printable code points they hold the part
    of ASCII, Latin-1 and the hiragana; their error message leaves out the
    character and its position. *)
Definition printable_part (c : N) : bool :=
  ((32 <=? c) && (c <=? 126) ||
   (161 <=? c) && (c <=? 255) && negb (c =? 173) ||
   (12353 <=? c) && (c <=? 12438))%N.

Definition utf8 : Console :=
  {| encodes := fun c => negb ((55296 <=? c) && (c <=? 57343))%N;
     encode_error := fun _ =>
       lit "'utf-8' codec can't encode character: surrogates not allowed";
     isprintable := printable_part |}.

Definition ascii_only : Console :=
  {| encodes := fun _ => false;
     encode_error := fun _ =>
       lit "'ascii' codec can't encode character: ordinal not in range(128)";
     isprintable := printable_part |}.

Definition start_on (c : Console) : world :=
  {| stdout := []; engine_calls := []; clock_reads := 0; console := c |}.

Definition start : world := start_on utf8.

(** State and exceptions: an exception keeps the effects done so far. *)
Definition M (A : Type) : Type := world -> res A * world.

Definition ret {A} (a : A) : M A := fun w => (Ret a, w).

Definition bind {A B} (m : M A) (k : A -> M B) : M B :=
  fun w =>
    match m w with
    | (Ret a, w') => k a w'
    | (Raise e, w') => (Raise e, w')
    end.

Definition raise {A} (e : exn) : M A := fun w => (Raise e, w).

(** [try: body except Exception as e: handler e] *)
Definition try_except_Exception {A} (body : M A) (handler : str -> M A) : M A :=
  fun w =>
    match body w with
    | (Raise (PyException msg), w') => handler msg w'
    | r => r
    end.

Declare Scope py_scope.
Delimit Scope py_scope with py.
Notation "x <- m ;; k" := (bind m (fun x => k))
  (at level 61, m at next level, right associativity) : py_scope.
Notation "m ;; k" := (bind m (fun _ => k))
  (at level 61, right associativity) : py_scope.
Local Open Scope py_scope.

Definition wrote (l : out_line) (w : world) : world :=
  {| stdout := stdout w ++ [l];
     engine_calls := engine_calls w;
     clock_reads := clock_reads w;
     console := console w |}.

(** [print(...)]: the line is encoded as a whole, so a line that cannot be
    encoded writes nothing. *)
Definition print (l : out_line) : M unit :=
  fun w =>
    if writable (console w) l then (Ret tt, wrote l w)
    else (Raise (PyException (encode_error (console w) l)), w).

Definition sys_exit {A} (code : Z) : M A := raise (SystemExit code).

(** [l[i]] *)
Definition index (l : list str) (i : nat) : M str :=
  match nth_error l i with
  | Some x => ret x
  | None => raise (PyException (lit "list index out of range"))
  end.

Definition usage : str :=
  lit "Missing arguments. Usage: python ocr_processor.py <image_path> <languages>".

Definition comma : N := 44%N.
Definition space : str := [32%N].

Section Script.

Context {reader_t : Type}.
Variable easyocr : Engine reader_t.
Variable clock : nat -> float.

(** [time.time()]: the reading of the clock, as a double. *)
Definition time_time : M float :=
  fun w =>
    (Ret (to_double (clock (clock_reads w))),
     {| stdout := stdout w;
        engine_calls := engine_calls w;
        clock_reads := S (clock_reads w);
        console := console w |}).

Definition easyocr_Reader (lang_list : list str) (gpu : bool) : M reader_t :=
  fun w =>
    (Reader easyocr lang_list gpu,
     {| stdout := stdout w;
        engine_calls := engine_calls w ++ [CallReader lang_list gpu];
        clock_reads := clock_reads w;
        console := console w |}).

Definition reader_readtext (r : reader_t) (image_path : str) : M (list detection) :=
  fun w =>
    (readtext easyocr r image_path,
     {| stdout := stdout w;
        engine_calls := engine_calls w ++ [CallReadtext image_path];
        clock_reads := clock_reads w;
        console := console w |}).

(** [for i, (bbox, text, confidence) in enumerate(results): ...] *)
Fixpoint for_results (i : nat) (results : list detection)
    (extracted_texts : list str) (confidence_scores : list float)
    : M (list str * list float) :=
  match results with
  | [] => ret (extracted_texts, confidence_scores)
  | (_, text, confidence) :: rest =>
      print (Progress (TextLine (i + 1) text (round confidence 3))) ;;
      for_results (S i) rest
        (extracted_texts ++ [strip text])
        (confidence_scores ++ [round confidence 3])
  end.

Definition success (full_text : str) (extracted_texts : list str)
    (confidence_scores : list float) (processing_time : float)
    (total : nat) : dict :=
  [("text_extracted", VStr full_text);
   ("individual_texts", VList (map VStr extracted_texts));
   ("confidence_scores", VList (map VFloat confidence_scores));
   ("processing_time", VFloat processing_time);
   ("total_detections", VInt (Z.of_nat total))]%string.

Definition failure (msg : str) : dict :=
  [("error", VStr msg);
   ("text_extracted", VStr []);
   ("confidence_scores", VList []);
   ("processing_time", VInt 0)]%string.

(** The suite of the [try] statement and its [except] clause. *)
Definition ocr_try (image_path languages : str) : M dict :=
  print (Progress (Starting image_path)) ;;
  start_time <- time_time ;;
  let lang_list := split comma languages in
  print (Progress (Initializing lang_list)) ;;
  reader <- easyocr_Reader lang_list false ;;
  print (Progress Initialized) ;;
  print (Progress Processing) ;;
  results <- reader_readtext reader image_path ;;
  print (Progress (Completed (List.length results))) ;;
  acc <- for_results 0 results [] [] ;;
  let extracted_texts := fst acc in
  let confidence_scores := snd acc in
  now <- time_time ;;
  let processing_time := round (fsub now start_time) 2 in
  print (Progress (TotalTime processing_time)) ;;
  let full_text := join space extracted_texts in
  ret (success full_text extracted_texts confidence_scores
         processing_time (List.length results)).

Definition ocr_except (msg : str) : M dict :=
  print (Progress (ErrorDuring msg)) ;;
  ret (failure msg).

Definition process_image_ocr (image_path languages : str) : M dict :=
  try_except_Exception (ocr_try image_path languages) ocr_except.

Definition main (argv : list str) : M unit :=
  if (List.length argv <? 3)%nat then
    print (Json true [("error", VStr usage)]%string) ;;
    sys_exit 1
  else
    image_path <- index argv 1 ;;
    languages <- index argv 2 ;;
    result <- process_image_ocr image_path languages ;;
    print (Json false result).

(** How the interpreter ends after [main()]: a normal return is status 0,
    [SystemExit(code)] is status [code], any other exception reaches the
    top level uncaught (a traceback and a non-zero status). *)
Inductive termination :=
| Exit (status : Z)
| Uncaught (e : exn).

Definition run (argv : list str) (w : world) : termination * world :=
  match main argv w with
  | (Ret _, w') => (Exit 0, w')
  | (Raise (SystemExit code), w') => (Exit code, w')
  | (Raise e, w') => (Uncaught e, w')
  end.

(** *** What a run leaves behind

    The results of the loop, and the world after each way
    [process_image_ocr] can end. *)
Definition text_of (d : detection) : str := snd (fst d).
Definition confidence_of (d : detection) : float := snd d.

(** The progress lines of the loop. *)
Fixpoint text_lines (i : nat) (results : list detection) : list out_line :=
  match results with
  | [] => []
  | d :: rest =>
      Progress (TextLine (i + 1) (text_of d) (round (confidence_of d) 3))
      :: text_lines (S i) rest
  end.

Definition texts_of (results : list detection) : list str :=
  map (fun d => strip (text_of d)) results.

Definition scores_of (results : list detection) : list float :=
  map (fun d => round (confidence_of d) 3) results.

(** The world after a successful run of [process_image_ocr]. *)
Definition after_success (image_path languages : str)
    (results : list detection) (processing_time : float) (w : world) : world :=
  {| stdout :=
       stdout w ++
       [Progress (Starting image_path);
        Progress (Initializing (split comma languages));
        Progress Initialized; Progress Processing;
        Progress (Completed (List.length results))] ++
       text_lines 0 results ++ [Progress (TotalTime processing_time)];
     engine_calls :=
       engine_calls w ++
       [CallReader (split comma languages) false; CallReadtext image_path];
     clock_reads := S (S (clock_reads w));
     console := console w |}.

Definition elapsed (w : world) : float :=
  round (fsub (to_double (clock (S (clock_reads w))))
              (to_double (clock (clock_reads w)))) 2.

(** The world after a run whose engine call raised. *)
Definition after_Reader_raise (image_path languages : str) (w : world) : world :=
  {| stdout :=
       stdout w ++
       [Progress (Starting image_path);
        Progress (Initializing (split comma languages))];
     engine_calls := engine_calls w ++ [CallReader (split comma languages) false];
     clock_reads := S (clock_reads w);
     console := console w |}.

Definition after_readtext_raise (image_path languages : str) (w : world) : world :=
  {| stdout :=
       stdout w ++
       [Progress (Starting image_path);
        Progress (Initializing (split comma languages));
        Progress Initialized; Progress Processing];
     engine_calls :=
       engine_calls w ++
       [CallReader (split comma languages) false; CallReadtext image_path];
     clock_reads := S (clock_reads w);
     console := console w |}.

Definition reported (msg : str) (w : world) : world :=
  wrote (Progress (ErrorDuring msg)) w.

(** What the [except] clause makes of an exception raised in the [try]. *)
Definition handled (e : exn) (w : world) : res dict * world :=
  match e with
  | PyException msg => ocr_except msg w
  | _ => (Raise e, w)
  end.

(** The world after [main] has printed record [d]. *)
Definition emitted (d : dict) (w : world) : world := wrote (Json false d) w.

(** The engine returns to the script or raises an instance of [Exception]. *)
Definition settles (image_path languages : str) : bool :=
  match Reader easyocr (split comma languages) false with
  | Ret r =>
      match readtext easyocr r image_path with
      | Ret _ => true
      | Raise e => is_Exception e
      end
  | Raise e => is_Exception e
  end.

(** Exception [e] is raised by the engine: at its initialization, or at its
    invocation on the image. *)
Definition engine_raises (image_path languages : str) (e : exn) : Prop :=
  Reader easyocr (split comma languages) false = Raise e \/
  exists r, Reader easyocr (split comma languages) false = Ret r /\
            readtext easyocr r image_path = Raise e.

(** The console can encode the two progress lines printed before the engine
    is initialized. *)
Definition reaches_engine (c : Console) (image_path languages : str) : bool :=
  writable c (Progress (Starting image_path)) &&
  writable c (Progress (Initializing (split comma languages))).

(** The console can encode every line of the run: no [print] raises.  The
    lines are the two before the engine, one for each detection when the
    engine returns, and the error line when it raises an instance of
    [Exception]; the other progress lines are ASCII. *)
Definition encodes_run (c : Console) (image_path languages : str) : bool :=
  reaches_engine c image_path languages &&
  match Reader easyocr (split comma languages) false with
  | Ret r =>
      match readtext easyocr r image_path with
      | Ret results => forallb (fun det => encodable c (text_of det)) results
      | Raise (PyException msg) => writable c (Progress (ErrorDuring msg))
      | Raise _ => true
      end
  | Raise (PyException msg) => writable c (Progress (ErrorDuring msg))
  | Raise _ => true
  end.

End Script.

(** The two shapes of the output record. *)
Definition success_keys : list string :=
  ["text_extracted"; "individual_texts"; "confidence_scores";
   "processing_time"; "total_detections"]%string.

Definition failure_keys : list string :=
  ["error"; "text_extracted"; "confidence_scores"; "processing_time"]%string.

(** The JSON records among the lines of stdout. *)
Definition json_lines (out : list out_line) : list (bool * dict) :=
  flat_map (fun l => match l with Json ea d => [(ea, d)] | Progress _ => [] end) out.

(** A world made from [w] by the script: the console is that of [w], and
    the output is that of [w] followed by progress lines. *)
Definition extends (w w' : world) : Prop :=
  console w' = console w /\
  (exists lines, stdout w' = stdout w ++ lines /\ json_lines lines = []).

End Ocr.

(** ** Sample environments

    Engines with a fixed outcome, two clocks and a command line, on which
    the properties below are run. *)

Module Sample.
Import Py Ocr.

Definition engine_of (init : res unit) (read : res (list detection))
    : Engine unit :=
  {| Reader := fun _ _ => init; readtext := fun _ _ => read |}.

Definition box : bbox := [(0, 0); (40, 0); (40, 12); (0, 12)].

Definition konnichiwa : str := [12371; 12435; 12395; 12385; 12399]%N.

Definition detections : list detection :=
  [(box, lit "  Hello ", 98765 # 100000);
   (box, konnichiwa ++ lit " ", 1 # 2)].

Definition reading : Engine unit := engine_of (Ret tt) (Ret detections).

Definition blank : Engine unit := engine_of (Ret tt) (Ret []).

Definition missing_file : Engine unit :=
  engine_of (Ret tt) (Raise (PyException (lit "No such file: scan.png"))).

Definition bad_language : Engine unit :=
  engine_of (Raise (PyException (lit "('xx', 'is not supported')"))) (Ret []).

Definition interrupted : Engine unit :=
  engine_of (Raise KeyboardInterrupt) (Ret []).

(** An engine whose error message names a file in hiragana. *)
Definition missing_kana_file : Engine unit :=
  engine_of (Ret tt) (Raise (PyException (lit "No such file: " ++ konnichiwa))).

(** A clock running forward, and one set back between its two readings. *)
Definition clock (n : nat) : float :=
  match n with O => 10 # 1 | _ => 12346 # 1000 end.

Definition clock_set_back (n : nat) : float :=
  match n with O => 10 # 1 | _ => 5 # 1 end.

(** Two readings fifteen thousandths apart. *)
Definition clock_short (n : nat) : float :=
  match n with O => 1 # 1000 | _ => 16 # 1000 end.

Definition prog : str := lit "ocr_processor.py".
Definition image_path : str := lit "scan.png".
Definition languages : str := lit "en,ja".

Definition argv : list str := [prog; image_path; languages].

(** A path that ends in a lone surrogate, as [sys.argv] holds a byte that
    is not UTF-8. *)
Definition surrogate_path : str := lit "scan" ++ [56448%N].

(** The languages string of the one letter e with acute accent. *)
Definition e_acute : str := [233%N].

End Sample.

(** * Properties *)

Import Py Ocr.
Local Open Scope py_scope.

(** ** The builtins *)

Lemma split_not_nil (sep : N) (s : str) : split sep s <> [].
Proof.
  destruct s as [|c s]; simpl; [discriminate|].
  destruct (N.eqb c sep); [discriminate|].
  destruct (split sep s); discriminate.
Qed.

Lemma join_cons (sep x : str) (l : list str) :
  l <> [] -> join sep (x :: l) = x ++ sep ++ join sep l.
Proof. destruct l; [congruence | reflexivity]. Qed.

(** Joining the pieces of a split with the separator gives the string back. *)
Lemma join_split (sep : N) (s : str) : join [sep] (split sep s) = s.
Proof.
  induction s as [|c s IH]; [reflexivity|].
  simpl split. destruct (N.eqb_spec c sep) as [->|Hne].
  - rewrite join_cons by apply split_not_nil. simpl. now rewrite IH.
  - pose proof (split_not_nil sep s) as Hnil.
    destruct (split sep s) as [|h t]; [congruence|].
    destruct t as [|h' t].
    + simpl in *. now rewrite IH.
    + rewrite join_cons by discriminate.
      rewrite join_cons in IH by discriminate.
      simpl. now rewrite <- IH.
Qed.

(** No piece of a split holds the separator. *)
Lemma split_no_sep (sep : N) (s p : str) :
  In p (split sep s) -> ~ In sep p.
Proof.
  revert p. induction s as [|c s IH]; intros p Hin.
  - simpl in Hin. destruct Hin as [<-|[]]. intros [].
  - simpl in Hin. destruct (N.eqb_spec c sep) as [->|Hne].
    + destruct Hin as [<-|Hin]; [intros []|now apply IH].
    + destruct (split sep s) as [|h t] eqn:E.
      * destruct Hin as [<-|[]]. intros [H|[]]. congruence.
      * destruct Hin as [<-|Hin].
        -- intros [H|H]; [congruence|]. apply (IH h); [now left|exact H].
        -- apply IH. now right.
Qed.

Lemma length_split (sep : N) (s : str) :
  List.length (split sep s) = S (count_occ N.eq_dec s sep).
Proof.
  induction s as [|c s IH]; [reflexivity|].
  simpl split. simpl count_occ.
  destruct (N.eqb_spec c sep) as [->|Hne].
  - destruct (N.eq_dec sep sep); [|congruence]. simpl. now rewrite IH.
  - destruct (N.eq_dec c sep); [congruence|].
    pose proof (split_not_nil sep s).
    destruct (split sep s); [congruence|]. simpl in *. exact IH.
Qed.

(** Splitting distributes over a separator. *)
Lemma split_app_sep (sep : N) (a b : str) :
  split sep (a ++ sep :: b) = split sep a ++ split sep b.
Proof.
  induction a as [|c a IH]; cbn [split app].
  - now rewrite N.eqb_refl.
  - destruct (N.eqb c sep); [now rewrite IH|].
    rewrite IH. pose proof (split_not_nil sep a).
    destruct (split sep a); [congruence|reflexivity].
Qed.

(** [strip] leaves no white space at either end. *)
Lemma lstrip_head (s : str) :
  match lstrip s with [] => True | c :: _ => isspace c = false end.
Proof.
  induction s as [|c s IH]; simpl; [exact I|].
  destruct (isspace c) eqn:E; [exact IH | exact E].
Qed.

Lemma lstrip_suffix (s : str) : exists p, s = p ++ lstrip s /\ forallb isspace p = true.
Proof.
  induction s as [|c s [p [IH1 IH2]]]; simpl.
  - now exists [].
  - destruct (isspace c) eqn:E.
    + exists (c :: p). simpl. rewrite E, IH2. split; [now f_equal|reflexivity].
    + now exists [].
Qed.

Lemma strip_head (s : str) :
  match strip s with [] => True | c :: _ => isspace c = false end.
Proof. apply lstrip_head. Qed.

Lemma lstrip_idem (s : str) : lstrip (lstrip s) = lstrip s.
Proof.
  pose proof (lstrip_head s) as H.
  destruct (lstrip s) as [|c t]; [reflexivity|]. simpl. now rewrite H.
Qed.

(** [round_half_even] stays between the integers around its argument. *)
Lemma round_half_even_cases (q : Q) :
  let f := Qnum q / Zpos (Qden q) in
  (round_half_even q = f /\ 2 * (Qnum q mod Zpos (Qden q)) <= Zpos (Qden q)) \/
  (round_half_even q = f + 1 /\ Zpos (Qden q) <= 2 * (Qnum q mod Zpos (Qden q))).
Proof.
  unfold round_half_even. cbv zeta.
  destruct (Z.compare_spec (2 * (Qnum q mod Zpos (Qden q))) (Zpos (Qden q)))
    as [E|L|G].
  - destruct (Z.even (Qnum q / Zpos (Qden q))); [left|right]; split; lia.
  - left; split; lia.
  - right; split; lia.
Qed.

Lemma round_half_even_nonneg (q : Q) : (0 <= q)%Q -> 0 <= round_half_even q.
Proof.
  intros Hq. unfold Qle in Hq. simpl in Hq. rewrite Z.mul_1_r in Hq.
  assert (0 <= Qnum q / Zpos (Qden q)) by (apply Z.div_pos; lia).
  destruct (round_half_even_cases q) as [[-> _]|[-> _]]; lia.
Qed.

Lemma round_half_even_le (q : Q) (m : Z) :
  (q <= inject_Z m)%Q -> round_half_even q <= m.
Proof.
  intros Hq. unfold Qle in Hq. simpl in Hq. rewrite Z.mul_1_r in Hq.
  pose proof (round_half_even_cases q) as Hc. cbv zeta in Hc.
  remember (Zpos (Qden q)) as d eqn:Ed. remember (Qnum q) as n eqn:En.
  assert (Hd : 0 < d) by lia.
  pose proof (Z.div_mod n d ltac:(lia)) as Hdm.
  pose proof (Z.mod_pos_bound n d Hd) as Hb.
  destruct Hc as [[-> _]|[-> Hhalf]]; nia.
Qed.

Lemma round_nonneg (x : float) (n : nat) : (0 <= x)%Q -> (0 <= round x n)%Q.
Proof.
  intros Hx. unfold round, Qle. simpl. rewrite Z.mul_1_r.
  apply round_half_even_nonneg.
  apply Qmult_le_0_compat; [exact Hx|]. unfold Qle. simpl. lia.
Qed.

Lemma round_le_1 (x : float) (n : nat) : (x <= 1)%Q -> (round x n <= 1)%Q.
Proof.
  intros Hx. unfold round, Qle. simpl. rewrite Z.mul_1_r.
  apply round_half_even_le.
  unfold Qle in *. simpl in *. rewrite Pos2Z.inj_mul. nia.
Qed.

Lemma round_has_decimals (x : float) (n : nat) : has_decimals n (round x n).
Proof. exists (round_half_even (x * (Zpos (scale n) # 1))). reflexivity. Qed.

(** A number that already has [n] decimals is a fixed point of [round]. *)
Lemma round_fixed (k : Z) (n : nat) :
  (round (k # scale n) n == k # scale n)%Q.
Proof.
  unfold round, Qeq. simpl. f_equal.
  unfold round_half_even. simpl.
  replace (k * Zpos (scale n)) with (k * Zpos (scale n * 1)) by (f_equal; lia).
  rewrite Z.mod_mul, Z.div_mul by lia. simpl. reflexivity.
Qed.

Example round_samples :
  round (625 # 10000) 3 = (62 # 1000)%Q /\
  round (1875 # 10000) 3 = (188 # 1000)%Q /\
  round (98765 # 100000) 3 = (988 # 1000)%Q /\
  round (1 # 8) 2 = (12 # 100)%Q /\
  round ((-5) # 1) 2 = ((-500) # 100)%Q.
Proof. repeat split; reflexivity. Qed.

(** [json.dumps(..., ensure_ascii=False)] writes every code point from
    U+0080 on as it is, and what it writes for an ASCII one is ASCII. *)
Lemma escape_char_non_ascii (c : N) :
  non_ascii c = true -> escape_char false c = [c].
Proof.
  unfold non_ascii, escape_char. intros H. apply N.ltb_lt in H.
  repeat match goal with
         | |- context [(c =? ?k)%N] =>
             destruct (N.eqb_spec c k); [lia|]
         end.
  destruct (N.ltb_spec c 32); [lia|]. reflexivity.
Qed.

Lemma hex_digit_ascii (n : N) : (n < 16)%N -> non_ascii (hex_digit n) = false.
Proof.
  intros H. unfold non_ascii, hex_digit. apply N.ltb_ge.
  destruct (N.ltb_spec n 10); lia.
Qed.

Lemma u_escape_ascii (c : N) : filter non_ascii (u_escape c) = [].
Proof.
  unfold u_escape. simpl filter.
  rewrite !hex_digit_ascii by (apply N.mod_lt; discriminate).
  reflexivity.
Qed.

Lemma escape_char_ascii (c : N) :
  non_ascii c = false -> filter non_ascii (escape_char false c) = [].
Proof.
  intros H. unfold escape_char.
  repeat match goal with
         | |- context [(c =? ?k)%N] =>
             destruct (N.eqb_spec c k); [reflexivity|]
         end.
  destruct (N.ltb_spec c 32); [apply u_escape_ascii|].
  simpl. now rewrite H.
Qed.

Lemma encode_string_literal (s : str) :
  filter non_ascii (encode_string false s) = filter non_ascii s.
Proof.
  unfold encode_string. rewrite !filter_app. simpl. rewrite app_nil_r.
  induction s as [|c s IH]; [reflexivity|].
  simpl. rewrite filter_app, IH.
  destruct (non_ascii c) eqn:E.
  - rewrite escape_char_non_ascii by exact E. simpl. now rewrite E.
  - now rewrite escape_char_ascii.
Qed.

(** With [ensure_ascii] left at its default the output is ASCII only. *)
Lemma escape_char_ensure_ascii (c : N) :
  filter non_ascii (escape_char true c) = [].
Proof.
  unfold escape_char.
  repeat match goal with
         | |- context [(c =? ?k)%N] =>
             destruct (N.eqb_spec c k); [reflexivity|]
         end.
  destruct (N.ltb_spec c 32); [apply u_escape_ascii|].
  simpl andb. destruct (N.ltb_spec 126 c).
  - destruct (N.ltb_spec c 65536); [apply u_escape_ascii|].
    rewrite filter_app, !u_escape_ascii. reflexivity.
  - simpl. unfold non_ascii. destruct (N.ltb_spec 127 c); [lia|reflexivity].
Qed.

(** The non-ASCII code points [dumps] writes without [ensure_ascii] are
    those of the strings of the record, in their order. *)
Lemma chars_of_app (a b : list piece) :
  chars_of (a ++ b) = chars_of a ++ chars_of b.
Proof. apply flat_map_app. Qed.

Lemma intercalate_literal (sep : str) (ls : list (list piece)) :
  filter non_ascii sep = [] ->
  filter non_ascii (chars_of (intercalate [Chars sep] ls)) =
  filter non_ascii (chars_of (List.concat ls)).
Proof.
  intros Hsep. induction ls as [|x ls IH]; [reflexivity|].
  destruct ls as [|y ls].
  - simpl. now rewrite app_nil_r.
  - change (intercalate [Chars sep] (x :: y :: ls))
      with (x ++ [Chars sep] ++ intercalate [Chars sep] (y :: ls)).
    change (List.concat (x :: y :: ls)) with (x ++ List.concat (y :: ls)).
    rewrite !chars_of_app, !filter_app, IH.
    simpl chars_of at 2. rewrite app_nil_r, Hsep. reflexivity.
Qed.

Lemma dumps_value_literal :
  forall v : value,
    filter non_ascii (chars_of (dumps_value false v)) =
    filter non_ascii (List.concat (value_strings v)).
Proof.
  fix IH 1. intros [s|z|q|l].
  - simpl. rewrite !app_nil_r. apply encode_string_literal.
  - reflexivity.
  - reflexivity.
  - cbn [dumps_value value_strings].
    rewrite !chars_of_app, !filter_app.
    rewrite intercalate_literal by reflexivity.
    simpl chars_of at 1. simpl chars_of at 2. simpl.
    rewrite app_nil_r.
    induction l as [|x l IHl]; [reflexivity|].
    simpl. rewrite chars_of_app, concat_app, !filter_app, IHl, (IH x).
    reflexivity.
Qed.

Lemma dumps_literal (d : dict) :
  filter non_ascii (chars_of (dumps false d)) =
  filter non_ascii (List.concat (dict_strings d)).
Proof.
  unfold dumps. rewrite !chars_of_app, !filter_app.
  rewrite intercalate_literal by reflexivity.
  simpl chars_of at 1. simpl chars_of at 2. simpl. rewrite app_nil_r.
  unfold dict_strings.
  induction d as [|[k v] d IH]; [reflexivity|].
  cbn [map List.concat flat_map fst snd].
  rewrite chars_of_app, concat_app, !filter_app, IH.
  f_equal. unfold dumps_item. cbn [fst snd].
  rewrite chars_of_app, filter_app, dumps_value_literal.
  f_equal. cbn [chars_of flat_map].
  rewrite filter_app, encode_string_literal. simpl.
  now rewrite app_nil_r, filter_app.
Qed.


(** ** More on the builtins *)

Lemma lstrip_spaces (s : str) :
  forallb isspace s = true -> lstrip s = [].
Proof.
  induction s as [|c s IH]; [reflexivity|].
  simpl. destruct (isspace c); [exact IH | discriminate].
Qed.

(** What [strip] removes is white space, at the two ends. *)
Lemma strip_decompose (s : str) :
  exists p q,
    s = p ++ strip s ++ q /\
    forallb isspace p = true /\ forallb isspace q = true.
Proof.
  destruct (lstrip_suffix (rev s)) as (q & Hq & Hqs).
  destruct (lstrip_suffix (rstrip s)) as (p & Hp & Hps).
  exists p, (rev q). split; [|split; [exact Hps|]].
  - unfold strip. rewrite app_assoc, <- Hp. unfold rstrip.
    rewrite <- rev_app_distr, <- Hq. now rewrite rev_involutive.
  - rewrite forallb_forall in *. intros c Hc. apply Hqs.
    now apply in_rev.
Qed.

Lemma strip_no_outer_space (s : str) :
  starts_with_space (strip s) = false /\ ends_with_space (strip s) = false.
Proof.
  split.
  - pose proof (lstrip_head (rstrip s)) as H. unfold strip, starts_with_space.
    destruct (lstrip (rstrip s)); [reflexivity | exact H].
  - destruct (lstrip_suffix (rstrip s)) as (p & Hp & _).
    pose proof (lstrip_head (rev s)) as H.
    assert (E : lstrip (rev s) = rev (strip s) ++ rev p).
    { unfold strip. rewrite <- rev_app_distr, <- Hp. unfold rstrip.
      now rewrite rev_involutive. }
    unfold ends_with_space, starts_with_space.
    destruct (rev (strip s)) as [|c t]; [reflexivity|].
    rewrite E in H. exact H.
Qed.

Lemma strip_idem (s : str) : strip (strip s) = strip s.
Proof.
  destruct (strip_no_outer_space s) as [Hs He].
  unfold strip at 1. unfold rstrip.
  unfold ends_with_space, starts_with_space in He.
  assert (E : lstrip (rev (strip s)) = rev (strip s)).
  { destruct (rev (strip s)) as [|c t]; [reflexivity|]. simpl. now rewrite He. }
  rewrite E, rev_involutive.
  unfold starts_with_space in Hs.
  destruct (strip s) as [|c t]; [reflexivity|]. simpl. now rewrite Hs.
Qed.

Lemma split_without_sep (sep : N) (s : str) :
  ~ In sep s -> split sep s = [s].
Proof.
  induction s as [|c s IH]; intros H; [reflexivity|].
  cbn [split]. destruct (N.eqb_spec c sep) as [->|_].
  - exfalso. apply H. now left.
  - rewrite IH; [reflexivity|]. intros Hin. apply H. now right.
Qed.

(** Splitting a join at its separator gives the joined strings back, when
    there is at least one and none holds the separator. *)
Lemma split_join (sep : N) (l : list str) :
  l <> [] ->
  Forall (fun x => ~ In sep x) l ->
  split sep (join [sep] l) = l.
Proof.
  induction l as [|x l IH]; intros Hne Hall; [congruence|].
  inversion Hall as [|? ? Hx Hl]; subst.
  destruct l as [|y l].
  - simpl. now apply split_without_sep.
  - rewrite join_cons by discriminate.
    change ([sep] ++ join [sep] (y :: l)) with (sep :: join [sep] (y :: l)).
    rewrite split_app_sep, split_without_sep by exact Hx.
    rewrite IH; [reflexivity|discriminate|exact Hl].
Qed.

Lemma length_join (sep : str) (l : list str) :
  List.length (join sep l) =
  (total_length l + List.length sep * (List.length l - 1))%nat.
Proof.
  induction l as [|x l IH]; [simpl; lia|].
  destruct l as [|y l].
  - simpl. lia.
  - rewrite join_cons by discriminate.
    rewrite !length_app, IH. cbn [total_length List.length]. nia.
Qed.

(** [round_half_even q] is an integer nearest to [q], the even one of the
    two when [q] lies half way. *)
Lemma round_half_even_spec (q : Q) :
  let k := round_half_even q in
  let d := Zpos (Qden q) in
  2 * Z.abs (k * d - Qnum q) < d \/
  (2 * Z.abs (k * d - Qnum q) = d /\ Z.even k = true).
Proof.
  cbv zeta. unfold round_half_even. cbv zeta.
  remember (Zpos (Qden q)) as d eqn:Ed. remember (Qnum q) as n eqn:En.
  assert (Hd : 0 < d) by lia.
  pose proof (Z.div_mod n d ltac:(lia)) as Hdm.
  pose proof (Z.mod_pos_bound n d Hd) as Hb.
  remember (n / d) as f eqn:Ef. remember (n mod d) as r eqn:Er.
  destruct (Z.compare_spec (2 * r) d) as [E|L|G].
  - right. destruct (Z.even f) eqn:Hev.
    + split; [|exact Hev]. replace (f * d - n) with (- r) by lia. lia.
    + split.
      * replace ((f + 1) * d - n) with (d - r) by lia. lia.
      * replace (f + 1) with (Z.succ f) by lia.
        rewrite Z.even_succ, <- Z.negb_even, Hev. reflexivity.
  - left. replace (f * d - n) with (- r) by lia. lia.
  - left. replace ((f + 1) * d - n) with (d - r) by lia. lia.
Qed.

Lemma round_half_even_mono (p q : Q) :
  (p <= q)%Q -> round_half_even p <= round_half_even q.
Proof.
  intros Hpq. unfold Qle in Hpq.
  pose proof (round_half_even_spec p) as Hp.
  pose proof (round_half_even_spec q) as Hq. cbv zeta in Hp, Hq.
  remember (round_half_even p) as k1. remember (round_half_even q) as k2.
  remember (Zpos (Qden p)) as d1. remember (Zpos (Qden q)) as d2.
  remember (Qnum p) as n1. remember (Qnum q) as n2.
  assert (Hd1 : 0 < d1) by lia. assert (Hd2 : 0 < d2) by lia.
  clear Heqk1 Heqk2 Heqd1 Heqd2 Heqn1 Heqn2.
  destruct (Z.le_gt_cases k1 k2) as [Hle|Hgt]; [exact Hle|exfalso].
  assert (L1 : (2 * k1 - 1) * d1 <= 2 * n1) by lia.
  assert (L2 : 2 * n2 <= (2 * k2 + 1) * d2) by lia.
  assert (M1 : (2 * k1 - 1) * d1 * d2 <= 2 * n1 * d2)
    by (apply Z.mul_le_mono_nonneg_r; lia).
  assert (M2 : 2 * n2 * d1 <= (2 * k2 + 1) * d2 * d1)
    by (apply Z.mul_le_mono_nonneg_r; lia).
  assert (M3 : (2 * k1 - 1) * (d1 * d2) <= (2 * k2 + 1) * (d1 * d2)) by nia.
  assert (Hdd : 0 < d1 * d2) by nia.
  apply Z.mul_le_mono_pos_r in M3; [|exact Hdd].
  assert (Hk : k1 = k2 + 1) by lia. subst k1.
  assert (E1 : 2 * n1 * d2 = (2 * (k2 + 1) - 1) * d1 * d2) by nia.
  assert (E2 : 2 * n2 * d1 = (2 * k2 + 1) * d2 * d1) by nia.
  apply Z.mul_cancel_r in E1; [|lia]. apply Z.mul_cancel_r in E2; [|lia].
  assert (Ev1 : Z.even (k2 + 1) = true) by (destruct Hp as [Hp|[_ Hp]]; [lia|exact Hp]).
  assert (Ev2 : Z.even k2 = true) by (destruct Hq as [Hq|[_ Hq]]; [lia|exact Hq]).
  replace (k2 + 1) with (Z.succ k2) in Ev1 by lia.
  rewrite Z.even_succ, <- Z.negb_even, Ev2 in Ev1. discriminate.
Qed.

Lemma round_mono (x y : float) (n : nat) :
  (x <= y)%Q -> (round x n <= round y n)%Q.
Proof.
  intros Hxy. unfold round, Qle. cbn [Qnum Qden].
  apply Z.mul_le_mono_nonneg_r; [lia|].
  apply round_half_even_mono.
  apply Qmult_le_compat_r; [exact Hxy|]. unfold Qle. simpl. lia.
Qed.

(** ** [json.dumps] writes no control character *)

Lemma hex_digit_no_control (n : N) : no_control (hex_digit n) = true.
Proof.
  unfold no_control, hex_digit. apply N.leb_le.
  destruct (N.ltb_spec n 10); lia.
Qed.

Lemma u_escape_no_control (c : N) : forallb no_control (u_escape c) = true.
Proof.
  unfold u_escape. cbn [forallb]. now rewrite !hex_digit_no_control.
Qed.

Lemma escape_char_no_control (ensure_ascii : bool) (c : N) :
  forallb no_control (escape_char ensure_ascii c) = true.
Proof.
  unfold escape_char.
  repeat match goal with
         | |- context [(c =? ?k)%N] =>
             destruct (N.eqb_spec c k); [reflexivity|]
         end.
  destruct (N.ltb_spec c 32); [apply u_escape_no_control|].
  assert (Hc : forallb no_control [c] = true).
  { cbn [forallb]. unfold no_control.
    destruct (N.leb_spec 32 c); [reflexivity|lia]. }
  destruct (ensure_ascii && (126 <? c)%N); [|exact Hc].
  destruct (N.ltb_spec c 65536); [apply u_escape_no_control|].
  now rewrite forallb_app, !u_escape_no_control.
Qed.

Lemma encode_string_no_control (ensure_ascii : bool) (s : str) :
  forallb no_control (encode_string ensure_ascii s) = true.
Proof.
  unfold encode_string. rewrite !forallb_app. cbn [forallb].
  replace (no_control 34) with true by reflexivity.
  rewrite !andb_true_r. cbn [andb].
  induction s as [|c s IH]; [reflexivity|].
  cbn [flat_map]. now rewrite forallb_app, escape_char_no_control, IH.
Qed.

Lemma intercalate_no_control (sep : str) (ls : list (list piece)) :
  forallb no_control sep = true ->
  Forall (fun ps => forallb no_control (chars_of ps) = true) ls ->
  forallb no_control (chars_of (intercalate [Chars sep] ls)) = true.
Proof.
  intros Hsep Hall. induction Hall as [|x ls Hx Hls IH]; [reflexivity|].
  destruct ls as [|y ls].
  - exact Hx.
  - change (intercalate [Chars sep] (x :: y :: ls))
      with (x ++ [Chars sep] ++ intercalate [Chars sep] (y :: ls)).
    rewrite !chars_of_app, !forallb_app, Hx, IH.
    cbn [chars_of flat_map]. now rewrite app_nil_r, Hsep.
Qed.

Lemma dumps_value_no_control (ensure_ascii : bool) :
  forall v : value,
    forallb no_control (chars_of (dumps_value ensure_ascii v)) = true.
Proof.
  fix IH 1. intros [s|z|q|l].
  - cbn [dumps_value chars_of flat_map]. rewrite app_nil_r.
    apply encode_string_no_control.
  - reflexivity.
  - reflexivity.
  - cbn [dumps_value]. rewrite !chars_of_app, !forallb_app.
    rewrite intercalate_no_control; [reflexivity|reflexivity|].
    induction l as [|x l IHl]; constructor; [apply IH | exact IHl].
Qed.

Lemma dumps_no_control (ensure_ascii : bool) (d : dict) :
  forallb no_control (chars_of (dumps ensure_ascii d)) = true.
Proof.
  unfold dumps. rewrite !chars_of_app, !forallb_app.
  rewrite intercalate_no_control; [reflexivity|reflexivity|].
  induction d as [|[k v] d IH]; constructor; [|exact IH].
  unfold dumps_item. cbn [fst snd].
  rewrite chars_of_app, forallb_app, dumps_value_no_control.
  cbn [chars_of flat_map]. rewrite app_nil_r, forallb_app.
  now rewrite encode_string_no_control.
Qed.


(** ** Doubles *)

Lemma pow2_pos (e : Z) : (0 < pow2 e)%Q.
Proof.
  unfold pow2. destruct (Z.leb_spec 0 e).
  - unfold Qlt, inject_Z. simpl. rewrite Z.mul_1_r. now apply Z.pow_pos_nonneg.
  - reflexivity.
Qed.

(** The double nearest to a number that is not negative is not negative. *)
Lemma to_double_nonneg (q : Q) : (0 <= q)%Q -> (0 <= to_double q)%Q.
Proof.
  intros Hq. unfold to_double.
  assert (Hn : 0 <= Qnum q) by (unfold Qle in Hq; simpl in Hq; lia).
  destruct (Z.ltb_spec (Qnum q) 0) as [Hneg|_]; [lia|].
  rewrite Qred_correct.
  set (e := Z.max (ilog2 (Qabs q) - 52) (-1074)).
  apply Qmult_le_0_compat.
  - assert (H : 0 <= round_half_even (Qabs q / pow2 e)).
    { apply round_half_even_nonneg. apply Qle_shift_div_l.
      - apply pow2_pos.
      - rewrite Qmult_0_l. apply Qabs_nonneg. }
    unfold Qle, inject_Z. simpl. lia.
  - apply Qlt_le_weak, pow2_pos.
Qed.

Lemma fsub_nonneg (x y : float) : (y <= x)%Q -> (0 <= fsub x y)%Q.
Proof.
  intros H. apply to_double_nonneg. now apply Qle_minus_iff in H.
Qed.

Example to_double_samples :
  to_double (1 # 10) = (3602879701896397 # 36028797018963968)%Q /\
  to_double (10 # 1) = (10 # 1)%Q /\
  to_double ((-5) # 1) = ((-5) # 1)%Q /\
  fsub (to_double (16 # 1000)) (to_double (1 # 1000)) =
    (1080863910568919 # 72057594037927936)%Q /\
  round (fsub (to_double (16 # 1000)) (to_double (1 # 1000))) 2 = (1 # 100)%Q.
Proof. repeat split; vm_compute; reflexivity. Qed.

(** ** What the console can encode *)

Lemma encodable_app (c : Console) (a b : str) :
  encodable c (a ++ b) = encodable c a && encodable c b.
Proof. unfold encodable. now rewrite filter_app, forallb_app. Qed.

Lemma encodable_incl (c : Console) (a b : str) :
  incl a b -> encodable c b = true -> encodable c a = true.
Proof.
  unfold encodable. rewrite !forallb_forall. intros Hi Hb x Hx.
  apply filter_In in Hx. destruct Hx as [Hx Hna].
  apply Hb. apply filter_In. split; [now apply Hi|exact Hna].
Qed.

Lemma encodable_ascii (c : Console) (s : str) :
  filter non_ascii s = [] -> encodable c s = true.
Proof. unfold encodable. now intros ->. Qed.

Lemma encodable_filter (c : Console) (f : N -> bool) (s : str) :
  encodable c s = true -> encodable c (filter f s) = true.
Proof. apply encodable_incl. apply incl_filter. Qed.

Lemma strip_incl (s : str) : incl (strip s) s.
Proof.
  destruct (strip_decompose s) as (p & q & Hs & _).
  intros x Hx. rewrite Hs. apply in_or_app. right. apply in_or_app. now left.
Qed.

Lemma encodable_join (c : Console) (l : list str) :
  forallb (encodable c) l = true -> encodable c (join space l) = true.
Proof.
  induction l as [|x l IH]; [reflexivity|].
  cbn [forallb]. intros H. apply andb_prop in H. destruct H as [Hx Hl].
  destruct l as [|y l]; [exact Hx|].
  rewrite join_cons by discriminate.
  rewrite !encodable_app, Hx, (IH Hl). reflexivity.
Qed.

Lemma encodable_concat (c : Console) (l : list str) :
  forallb (encodable c) l = true -> encodable c (List.concat l) = true.
Proof.
  induction l as [|x l IH]; [reflexivity|].
  cbn [forallb List.concat]. intros H. apply andb_prop in H.
  destruct H as [Hx Hl]. now rewrite encodable_app, Hx, IH.
Qed.

(** Every encoding writes ASCII: a line without data above ASCII can be
    written on every console. *)
Lemma writable_ascii_path (c : Console) (image_path : str) :
  filter non_ascii image_path = [] ->
  writable c (Progress (Starting image_path)) = true.
Proof. intros H. now apply encodable_ascii. Qed.

Lemma filter_non_ascii_concat (l : list str) :
  Forall (fun x => filter non_ascii x = []) l ->
  filter non_ascii (List.concat l) = [].
Proof.
  induction 1 as [|x l Hx _ IH]; [reflexivity|].
  cbn [List.concat]. now rewrite filter_app, Hx, IH.
Qed.

Lemma split_ascii (sep : N) (s : str) :
  filter non_ascii s = [] ->
  Forall (fun x => filter non_ascii x = []) (split sep s).
Proof.
  induction s as [|ch s IH]; intros H.
  - repeat constructor.
  - cbn [filter] in H. destruct (non_ascii ch) eqn:Hc; [discriminate|].
    specialize (IH H). cbn [split].
    destruct (N.eqb ch sep); [now constructor|].
    destruct (split sep s) as [|h t]; inversion IH; subst.
    + repeat constructor. cbn [filter]. now rewrite Hc.
    + constructor; [|assumption]. cbn [filter]. now rewrite Hc.
Qed.

Lemma writable_ascii_languages (c : Console) (languages : str) :
  filter non_ascii languages = [] ->
  writable c (Progress (Initializing (split comma languages))) = true.
Proof.
  intros H. unfold writable. cbn [raw_text].
  apply encodable_filter, encodable_ascii, filter_non_ascii_concat.
  now apply split_ascii.
Qed.

(** What [json.dumps] writes above ASCII without [ensure_ascii] is what the
    strings of the record hold above ASCII. *)
Lemma writable_json (c : Console) (d : dict) :
  writable c (Json false d) = encodable c (List.concat (dict_strings d)).
Proof.
  unfold writable, encodable. cbn [raw_text]. now rewrite dumps_literal.
Qed.

Lemma forallb_map {A B} (f : B -> bool) (g : A -> B) (l : list A) :
  forallb f (map g l) = forallb (fun x => f (g x)) l.
Proof. induction l as [|x l IH]; [reflexivity|]. simpl. now rewrite IH. Qed.

(** ** The script *)

Lemma print_writes (l : out_line) (w : world) :
  writable (console w) l = true -> print l w = (Ret tt, wrote l w).
Proof. intros H. unfold print. now rewrite H. Qed.

Lemma print_raises (l : out_line) (w : world) :
  writable (console w) l = false ->
  print l w = (Raise (PyException (encode_error (console w) l)), w).
Proof. intros H. unfold print. now rewrite H. Qed.

Lemma json_lines_app (a b : list out_line) :
  json_lines (a ++ b) = json_lines a ++ json_lines b.
Proof. unfold json_lines. apply flat_map_app. Qed.

Lemma json_lines_text_lines (i : nat) (results : list detection) :
  json_lines (text_lines i results) = [].
Proof.
  revert i. induction results as [|d rest IH]; intros i; [reflexivity|].
  simpl. apply IH.
Qed.

Lemma length_texts_of (results : list detection) :
  List.length (texts_of results) = List.length results.
Proof. apply length_map. Qed.

Lemma length_scores_of (results : list detection) :
  List.length (scores_of results) = List.length results.
Proof. apply length_map. Qed.

Lemma length_text_lines (i : nat) (results : list detection) :
  List.length (text_lines i results) = List.length results.
Proof.
  revert i. induction results as [|d rest IH]; intros i; [reflexivity|].
  simpl. now rewrite IH.
Qed.

Lemma nth_text_lines (results : list detection) :
  forall i k b t c,
    nth_error results k = Some (b, t, c) ->
    nth_error (text_lines i results) k =
    Some (Progress (TextLine (i + k + 1) t (round c 3))).
Proof.
  induction results as [|d rest IH]; intros i k b t c H.
  - destruct k; discriminate.
  - destruct k as [|k]; simpl in H.
    + injection H as ->. simpl. unfold text_of, confidence_of. simpl.
      now rewrite Nat.add_0_r.
    + simpl. rewrite (IH (S i) k b t c H).
      replace (S i + k + 1)%nat with (i + S k + 1)%nat by lia. reflexivity.
Qed.

Lemma extends_refl (w : world) : extends w w.
Proof. split; [reflexivity|]. exists []. now rewrite app_nil_r. Qed.

Lemma extends_trans (w1 w2 w3 : world) :
  extends w1 w2 -> extends w2 w3 -> extends w1 w3.
Proof.
  intros [C1 (l1 & S1 & J1)] [C2 (l2 & S2 & J2)]. split; [congruence|].
  exists (l1 ++ l2). rewrite S2, S1, <- app_assoc.
  split; [reflexivity|]. now rewrite json_lines_app, J1, J2.
Qed.

Lemma extends_wrote (p : progress) (w : world) : extends w (wrote (Progress p) w).
Proof. split; [reflexivity|]. now exists [Progress p]. Qed.

Lemma extends_json_lines (w w' : world) :
  extends w w' -> json_lines (stdout w') = json_lines (stdout w).
Proof.
  intros [_ (l & S & J)]. now rewrite S, json_lines_app, J, app_nil_r.
Qed.

Section ScriptFacts.

Context {reader_t : Type}.
Variable easyocr : Engine reader_t.
Variable clock : nat -> float.

(** The loop, when the console can encode the text of every detection. *)
Lemma for_results_spec (results : list detection) :
  forall i ts cs w,
    forallb (fun det => encodable (console w) (text_of det)) results = true ->
    for_results i results ts cs w =
    (Ret (ts ++ texts_of results, cs ++ scores_of results),
     {| stdout := stdout w ++ text_lines i results;
        engine_calls := engine_calls w;
        clock_reads := clock_reads w;
        console := console w |}).
Proof.
  induction results as [|[[b t] c] rest IH]; intros i ts cs w H.
  - simpl. rewrite !app_nil_r. destruct w; reflexivity.
  - cbn [forallb] in H. apply andb_prop in H. destruct H as [Ht Hrest].
    cbn [for_results]. unfold bind.
    rewrite print_writes by exact Ht.
    rewrite IH by exact Hrest. simpl.
    now rewrite <- !app_assoc.
Qed.

(** The loop, when it cannot: the [print] of the first such detection
    raises, after the lines of the detections before it. *)
Lemma for_results_raises (results : list detection) :
  forall i ts cs w,
    forallb (fun det => encodable (console w) (text_of det)) results = false ->
    exists l w',
      for_results i results ts cs w =
        (Raise (PyException (encode_error (console w) l)), w') /\
      extends w w' /\
      engine_calls w' = engine_calls w /\ clock_reads w' = clock_reads w.
Proof.
  induction results as [|[[b t] c] rest IH]; intros i ts cs w H.
  - discriminate.
  - cbn [forallb] in H. cbn [for_results]. unfold bind.
    destruct (encodable (console w) (text_of (b, t, c))) eqn:Ht.
    + rewrite print_writes by exact Ht. cbn [andb] in H.
      destruct (IH (S i) (ts ++ [strip t]) (cs ++ [round c 3])
                  (wrote (Progress (TextLine (i + 1) t (round c 3))) w) H)
        as (l & w' & Hf & He & Hc & Hk).
      exists l, w'. split; [exact Hf|]. split; [|now split].
      eapply extends_trans; [apply extends_wrote|exact He].
    + rewrite print_raises by exact Ht.
      eexists _, w. split; [reflexivity|].
      split; [apply extends_refl|now split].
Qed.

Lemma reaches_engine_lines (c : Console) (image_path languages : str) :
  reaches_engine c image_path languages = true ->
  writable c (Progress (Starting image_path)) = true /\
  writable c (Progress (Initializing (split comma languages))) = true.
Proof. intros H. now apply andb_prop in H. Qed.

(** The [try] suite up to the initialization of the engine. *)
Lemma ocr_try_returns (image_path languages : str) (w : world)
    (r : reader_t) (results : list detection) :
  reaches_engine (console w) image_path languages = true ->
  Reader easyocr (split comma languages) false = Ret r ->
  readtext easyocr r image_path = Ret results ->
  forallb (fun det => encodable (console w) (text_of det)) results = true ->
  ocr_try easyocr clock image_path languages w =
  (Ret (success (join space (texts_of results)) (texts_of results)
          (scores_of results) (elapsed clock w) (List.length results)),
   after_success image_path languages results (elapsed clock w) w).
Proof.
  intros Hre HR Hr Ht. destruct (reaches_engine_lines _ _ _ Hre) as [HS HI].
  unfold ocr_try, bind, time_time, easyocr_Reader, reader_readtext, ret.
  rewrite print_writes by exact HS. cbn [wrote stdout engine_calls clock_reads console].
  rewrite print_writes by exact HI. cbn [wrote stdout engine_calls clock_reads console].
  rewrite HR.
  rewrite print_writes by reflexivity. cbn [wrote stdout engine_calls clock_reads console].
  rewrite print_writes by reflexivity. cbn [wrote stdout engine_calls clock_reads console].
  rewrite Hr.
  rewrite print_writes by reflexivity. cbn [wrote stdout engine_calls clock_reads console].
  rewrite for_results_spec by exact Ht.
  cbn [stdout engine_calls clock_reads console fst snd app].
  rewrite print_writes by reflexivity.
  unfold after_success, elapsed, wrote.
  cbn [stdout engine_calls clock_reads console]. now rewrite <- !app_assoc.
Qed.

Lemma ocr_try_Reader_raises (image_path languages : str) (w : world) (e : exn) :
  reaches_engine (console w) image_path languages = true ->
  Reader easyocr (split comma languages) false = Raise e ->
  ocr_try easyocr clock image_path languages w =
  (Raise e, after_Reader_raise image_path languages w).
Proof.
  intros Hre HR. destruct (reaches_engine_lines _ _ _ Hre) as [HS HI].
  unfold ocr_try, bind, time_time, easyocr_Reader, reader_readtext, ret.
  rewrite print_writes by exact HS. cbn [wrote stdout engine_calls clock_reads console].
  rewrite print_writes by exact HI. cbn [wrote stdout engine_calls clock_reads console].
  rewrite HR. unfold after_Reader_raise. now rewrite <- !app_assoc.
Qed.

Lemma ocr_try_readtext_raises (image_path languages : str) (w : world)
    (r : reader_t) (e : exn) :
  reaches_engine (console w) image_path languages = true ->
  Reader easyocr (split comma languages) false = Ret r ->
  readtext easyocr r image_path = Raise e ->
  ocr_try easyocr clock image_path languages w =
  (Raise e, after_readtext_raise image_path languages w).
Proof.
  intros Hre HR Hr. destruct (reaches_engine_lines _ _ _ Hre) as [HS HI].
  unfold ocr_try, bind, time_time, easyocr_Reader, reader_readtext, ret.
  rewrite print_writes by exact HS. cbn [wrote stdout engine_calls clock_reads console].
  rewrite print_writes by exact HI. cbn [wrote stdout engine_calls clock_reads console].
  rewrite HR.
  rewrite print_writes by reflexivity. cbn [wrote stdout engine_calls clock_reads console].
  rewrite print_writes by reflexivity. cbn [wrote stdout engine_calls clock_reads console].
  rewrite Hr. unfold after_readtext_raise. now rewrite <- !app_assoc.
Qed.

Lemma process_image_ocr_returns (image_path languages : str) (w : world)
    (r : reader_t) (results : list detection) :
  reaches_engine (console w) image_path languages = true ->
  Reader easyocr (split comma languages) false = Ret r ->
  readtext easyocr r image_path = Ret results ->
  forallb (fun det => encodable (console w) (text_of det)) results = true ->
  process_image_ocr easyocr clock image_path languages w =
  (Ret (success (join space (texts_of results)) (texts_of results)
          (scores_of results) (elapsed clock w) (List.length results)),
   after_success image_path languages results (elapsed clock w) w).
Proof.
  intros Hre HR Hr Ht. unfold process_image_ocr, try_except_Exception.
  now rewrite (ocr_try_returns _ _ _ _ _ Hre HR Hr Ht).
Qed.

Lemma process_image_ocr_Reader_raises (image_path languages : str) (w : world)
    (e : exn) :
  reaches_engine (console w) image_path languages = true ->
  Reader easyocr (split comma languages) false = Raise e ->
  process_image_ocr easyocr clock image_path languages w =
  handled e (after_Reader_raise image_path languages w).
Proof.
  intros Hre HR. unfold process_image_ocr, try_except_Exception.
  rewrite (ocr_try_Reader_raises _ _ _ _ Hre HR). now destruct e.
Qed.

Lemma process_image_ocr_readtext_raises (image_path languages : str) (w : world)
    (r : reader_t) (e : exn) :
  reaches_engine (console w) image_path languages = true ->
  Reader easyocr (split comma languages) false = Ret r ->
  readtext easyocr r image_path = Raise e ->
  process_image_ocr easyocr clock image_path languages w =
  handled e (after_readtext_raise image_path languages w).
Proof.
  intros Hre HR Hr. unfold process_image_ocr, try_except_Exception.
  rewrite (ocr_try_readtext_raises _ _ _ _ _ Hre HR Hr). now destruct e.
Qed.

(** The [except] clause returns the failure record when the console can
    encode the message, and raises when it cannot. *)
Lemma ocr_except_returns (msg : str) (w : world) :
  writable (console w) (Progress (ErrorDuring msg)) = true ->
  ocr_except msg w = (Ret (failure msg), reported msg w).
Proof.
  intros H. unfold ocr_except, bind. now rewrite print_writes by exact H.
Qed.

Lemma ocr_except_raises (msg : str) (w : world) :
  writable (console w) (Progress (ErrorDuring msg)) = false ->
  ocr_except msg w =
  (Raise (PyException (encode_error (console w) (Progress (ErrorDuring msg)))),
   w).
Proof.
  intros H. unfold ocr_except, bind. now rewrite print_raises by exact H.
Qed.

Lemma ocr_except_engine_calls (msg : str) (w : world) :
  engine_calls (snd (ocr_except msg w)) = engine_calls w.
Proof.
  destruct (writable (console w) (Progress (ErrorDuring msg))) eqn:H.
  - now rewrite ocr_except_returns by exact H.
  - now rewrite ocr_except_raises by exact H.
Qed.

Lemma ocr_except_clock_reads (msg : str) (w : world) :
  clock_reads (snd (ocr_except msg w)) = clock_reads w.
Proof.
  destruct (writable (console w) (Progress (ErrorDuring msg))) eqn:H.
  - now rewrite ocr_except_returns by exact H.
  - now rewrite ocr_except_raises by exact H.
Qed.

(** When the engine returns and the console can encode every line, the
    hypotheses of the lemmas above hold. *)
Lemma encodes_run_returns (c : Console) (image_path languages : str)
    (r : reader_t) (results : list detection) :
  Reader easyocr (split comma languages) false = Ret r ->
  readtext easyocr r image_path = Ret results ->
  encodes_run easyocr c image_path languages = true ->
  reaches_engine c image_path languages = true /\
  forallb (fun det => encodable c (text_of det)) results = true.
Proof.
  intros HR Hr H. unfold encodes_run in H. rewrite HR, Hr in H.
  now apply andb_prop in H.
Qed.

End ScriptFacts.

Lemma value_strings_VStr (l : list str) :
  flat_map value_strings (map VStr l) = l.
Proof. induction l as [|x l IH]; [reflexivity|]. simpl. now rewrite IH. Qed.

Lemma value_strings_VFloat (l : list float) :
  flat_map value_strings (map VFloat l) = [].
Proof. induction l as [|x l IH]; [reflexivity|]. exact IH. Qed.

Section Runs.

Context {reader_t : Type}.
Variable easyocr : Engine reader_t.
Variable clock : nat -> float.

Lemma extends_after_success (image_path languages : str)
    (results : list detection) (t : float) (w : world) :
  extends w (after_success image_path languages results t w).
Proof.
  split; [reflexivity|]. eexists. split; [reflexivity|].
  cbn [json_lines flat_map app].
  change (flat_map _ (text_lines 0 results ++ [Progress (TotalTime t)]))
    with (json_lines (text_lines 0 results ++ [Progress (TotalTime t)])).
  now rewrite json_lines_app, json_lines_text_lines.
Qed.

Lemma extends_after_Reader_raise (image_path languages : str) (w : world) :
  extends w (after_Reader_raise image_path languages w).
Proof. split; [reflexivity|]. eexists. split; reflexivity. Qed.

Lemma extends_after_readtext_raise (image_path languages : str) (w : world) :
  extends w (after_readtext_raise image_path languages w).
Proof. split; [reflexivity|]. eexists. split; reflexivity. Qed.

(** Every way the [try] suite can end: with the success record, when the
    engine returned and every line could be written, or with an exception,
    after progress lines only. *)
Lemma ocr_try_cases (image_path languages : str) (w : world) :
  (exists r results,
      reaches_engine (console w) image_path languages = true /\
      Reader easyocr (split comma languages) false = Ret r /\
      readtext easyocr r image_path = Ret results /\
      forallb (fun det => encodable (console w) (text_of det)) results = true /\
      ocr_try easyocr clock image_path languages w =
      (Ret (success (join space (texts_of results)) (texts_of results)
              (scores_of results) (elapsed clock w) (List.length results)),
       after_success image_path languages results (elapsed clock w) w)) \/
  (exists e w0,
      ocr_try easyocr clock image_path languages w = (Raise e, w0) /\
      extends w w0 /\ (clock_reads w0 <= S (clock_reads w))%nat /\
      engine_calls w0 =
        engine_calls w ++
        (if reaches_engine (console w) image_path languages then
           CallReader (split comma languages) false ::
           match Reader easyocr (split comma languages) false with
           | Ret _ => [CallReadtext image_path]
           | Raise _ => []
           end
         else [])).
Proof.
  unfold reaches_engine.
  destruct (writable (console w) (Progress (Starting image_path))) eqn:HS.
  2:{ right. eexists _, w.
      split; [|split; [apply extends_refl|split; [lia|]]].
      - unfold ocr_try, bind. now rewrite print_raises by exact HS.
      - cbn [andb]. now rewrite app_nil_r. }
  destruct (writable (console w)
              (Progress (Initializing (split comma languages)))) eqn:HI.
  2:{ right. eexists _, _. split.
      - unfold ocr_try, bind, time_time.
        rewrite print_writes by exact HS.
        cbn [wrote stdout engine_calls clock_reads console].
        rewrite print_raises by exact HI. reflexivity.
      - split; [|split; [simpl; lia|]].
        + split; [reflexivity|].
          now exists [Progress (Starting image_path)].
        + cbn [andb engine_calls]. now rewrite app_nil_r. }
  assert (Hre : reaches_engine (console w) image_path languages = true)
    by (unfold reaches_engine; now rewrite HS, HI).
  cbn [andb].
  destruct (Reader easyocr (split comma languages) false) as [r|e] eqn:HR.
  2:{ right. eexists _, _.
      split; [exact (ocr_try_Reader_raises _ _ _ _ _ _ Hre HR)|].
      split; [apply extends_after_Reader_raise|].
      split; [simpl; lia|reflexivity]. }
  destruct (readtext easyocr r image_path) as [results|e] eqn:Hr.
  2:{ right. eexists _, _.
      split; [exact (ocr_try_readtext_raises _ _ _ _ _ _ _ Hre HR Hr)|].
      split; [apply extends_after_readtext_raise|].
      split; [simpl; lia|reflexivity]. }
  destruct (forallb (fun det => encodable (console w) (text_of det)) results)
    eqn:Ht.
  - left. exists r, results.
    split; [reflexivity|]. split; [reflexivity|]. split; [exact Hr|].
    split; [exact Ht|].
    exact (ocr_try_returns _ _ _ _ _ _ _ Hre HR Hr Ht).
  - right.
    unfold ocr_try, bind, time_time, easyocr_Reader, reader_readtext, ret.
    rewrite print_writes by exact HS.
    cbn [wrote stdout engine_calls clock_reads console].
    rewrite print_writes by exact HI.
    cbn [wrote stdout engine_calls clock_reads console].
    rewrite HR.
    rewrite print_writes by reflexivity.
    cbn [wrote stdout engine_calls clock_reads console].
    rewrite print_writes by reflexivity.
    cbn [wrote stdout engine_calls clock_reads console].
    rewrite Hr.
    rewrite print_writes by reflexivity.
    cbn [wrote stdout engine_calls clock_reads console].
    match goal with
    | |- context [for_results ?i ?rs ?ts ?cs ?w1] =>
        destruct (for_results_raises rs i ts cs w1 Ht)
          as (l & w' & Hf & He & Hc & Hk)
    end.
    rewrite Hf. eexists _, w'. split; [reflexivity|].
    split; [|split; [rewrite Hk; simpl; lia|]].
    + eapply extends_trans; [|exact He].
      split; [reflexivity|]. eexists. unfold wrote. cbn [stdout].
      split; [now rewrite <- !app_assoc|reflexivity].
    + rewrite Hc. unfold wrote. cbn [engine_calls]. now rewrite <- app_assoc.
Qed.

(** [process_image_ocr] adds progress lines only, on the same console. *)
Lemma process_image_ocr_extends (image_path languages : str) (w : world) :
  extends w (snd (process_image_ocr easyocr clock image_path languages w)).
Proof.
  unfold process_image_ocr, try_except_Exception.
  destruct (ocr_try_cases image_path languages w)
    as [(r & results & _ & _ & _ & _ & ->)|(e & w0 & -> & He & _ & _)].
  - apply extends_after_success.
  - destruct e as [msg| |code]; [|exact He|exact He].
    destruct (writable (console w0) (Progress (ErrorDuring msg))) eqn:Hm.
    + rewrite ocr_except_returns by exact Hm.
      eapply extends_trans; [exact He|apply extends_wrote].
    + rewrite ocr_except_raises by exact Hm. exact He.
Qed.

(** A record that [process_image_ocr] returns is the success record of a
    run in which the engine returned and every line was written, or the
    failure record of a message that was written. *)
Lemma process_image_ocr_Ret_inv (image_path languages : str) (w : world)
    (d : dict) (w' : world) :
  process_image_ocr easyocr clock image_path languages w = (Ret d, w') ->
  (exists r results,
      reaches_engine (console w) image_path languages = true /\
      Reader easyocr (split comma languages) false = Ret r /\
      readtext easyocr r image_path = Ret results /\
      forallb (fun det => encodable (console w) (text_of det)) results = true /\
      d = success (join space (texts_of results)) (texts_of results)
            (scores_of results) (elapsed clock w) (List.length results) /\
      w' = after_success image_path languages results (elapsed clock w) w) \/
  (exists msg,
      d = failure msg /\
      writable (console w) (Progress (ErrorDuring msg)) = true).
Proof.
  unfold process_image_ocr, try_except_Exception.
  destruct (ocr_try_cases image_path languages w)
    as [(r & results & Hre & HR & Hr & Ht & ->)|(e & w0 & -> & He & _ & _)].
  - intros [= <- <-]. left. exists r, results. now repeat split.
  - destruct e as [msg| |code]; try discriminate.
    destruct (writable (console w0) (Progress (ErrorDuring msg))) eqn:Hm.
    + rewrite ocr_except_returns by exact Hm. intros [= <- _].
      right. exists msg. split; [reflexivity|].
      destruct He as [Hc _]. now rewrite <- Hc.
    + rewrite ocr_except_raises by exact Hm. discriminate.
Qed.

(** The engine calls of a run: none unless the two lines before could be
    written, then [Reader], and [readtext] if [Reader] returned. *)
Lemma engine_calls_after (image_path languages : str) (w : world) :
  engine_calls
    (snd (process_image_ocr easyocr clock image_path languages w)) =
  engine_calls w ++
  (if reaches_engine (console w) image_path languages then
     CallReader (split comma languages) false ::
     match Reader easyocr (split comma languages) false with
     | Ret _ => [CallReadtext image_path]
     | Raise _ => []
     end
   else []).
Proof.
  unfold process_image_ocr, try_except_Exception.
  destruct (ocr_try_cases image_path languages w)
    as [(r & results & Hre & HR & Hr & Ht & ->)|(e & w0 & -> & _ & _ & Hc)].
  - cbn [snd after_success engine_calls]. now rewrite Hre, HR.
  - rewrite <- Hc. destruct e as [msg| |code]; try reflexivity.
    apply ocr_except_engine_calls.
Qed.

(** What a returned record holds above ASCII has been written before in a
    progress line: the console can encode the record. *)
Lemma returned_record_writable (image_path languages : str) (w : world)
    (d : dict) (w' : world) :
  process_image_ocr easyocr clock image_path languages w = (Ret d, w') ->
  writable (console w') (Json false d) = true.
Proof.
  intros H.
  pose proof (process_image_ocr_extends image_path languages w) as He.
  rewrite H in He. destruct He as [Hc _]. cbn [snd] in Hc. rewrite Hc.
  apply process_image_ocr_Ret_inv in H.
  rewrite writable_json.
  destruct H as [(r & results & _ & _ & _ & Ht & -> & _)|(msg & -> & Hm)].
  - assert (Hs : forallb (encodable (console w)) (texts_of results) = true).
    { unfold texts_of. rewrite forallb_map. rewrite forallb_forall in *.
      intros det Hdet. eapply encodable_incl; [apply strip_incl|].
      now apply Ht. }
    unfold dict_strings, success. cbn [flat_map fst snd value_strings].
    rewrite value_strings_VStr, value_strings_VFloat.
    cbn [app List.concat].
    rewrite !encodable_app.
    rewrite (encodable_join _ _ Hs).
    rewrite !concat_app, !encodable_app.
    rewrite (encodable_concat _ _ Hs). reflexivity.
  - unfold dict_strings, failure. cbn [flat_map fst snd value_strings app].
    cbn [List.concat]. rewrite !encodable_app.
    change (encodable (console w) msg)
      with (writable (console w) (Progress (ErrorDuring msg))).
    now rewrite Hm.
Qed.

(** With two arguments or more, [main] is [process_image_ocr] on the first
    two, followed by the one [print] of the record. *)
Lemma main_args (prog image_path languages : str) (more : list str) :
  main easyocr clock (prog :: image_path :: languages :: more) =
  (result <- process_image_ocr easyocr clock image_path languages ;;
   print (Json false result)).
Proof. reflexivity. Qed.

Lemma main_few_args (argv : list str) (w : world) :
  (List.length argv < 3)%nat ->
  main easyocr clock argv w =
  (Raise (SystemExit 1),
   wrote (Json true [("error"%string, VStr usage)]) w).
Proof.
  intros H. unfold main. apply Nat.ltb_lt in H. rewrite H.
  unfold bind. rewrite print_writes by reflexivity. reflexivity.
Qed.

Lemma at_least_three (argv : list str) :
  (3 <= List.length argv)%nat ->
  exists prog image_path languages more,
    argv = prog :: image_path :: languages :: more.
Proof.
  destruct argv as [|a [|b [|c m]]]; simpl; try lia.
  intros _. now exists a, b, c, m.
Qed.

Lemma run_args (prog image_path languages : str) (more : list str) (w : world) :
  run easyocr clock (prog :: image_path :: languages :: more) w =
  match process_image_ocr easyocr clock image_path languages w with
  | (Ret d, w') => (Exit 0, emitted d w')
  | (Raise (SystemExit code), w') => (Exit code, w')
  | (Raise e, w') => (Uncaught e, w')
  end.
Proof.
  unfold run. rewrite main_args. unfold bind.
  destruct (process_image_ocr easyocr clock image_path languages w)
    as [[d|e] w'] eqn:Hp; [|reflexivity].
  rewrite print_writes by exact (returned_record_writable _ _ _ _ _ Hp).
  reflexivity.
Qed.

End Runs.

Ltac json_lines_norm :=
  unfold emitted, reported, wrote, after_success, after_readtext_raise,
    after_Reader_raise;
  cbn [stdout];
  rewrite ?json_lines_app, ?json_lines_text_lines;
  simpl; now rewrite ?app_nil_r.

Section Claims.

Context {reader_t : Type}.
Variable easyocr : Engine reader_t.
Variable clock : nat -> float.

(** The run of [process_image_ocr] in which the engine returns and no
    [print] raises. *)
Lemma process_image_ocr_succeeds (image_path languages : str) (w : world)
    (r : reader_t) (results : list detection) :
  Reader easyocr (split comma languages) false = Ret r ->
  readtext easyocr r image_path = Ret results ->
  encodes_run easyocr (console w) image_path languages = true ->
  process_image_ocr easyocr clock image_path languages w =
  (Ret (success (join space (texts_of results)) (texts_of results)
          (scores_of results) (elapsed clock w) (List.length results)),
   after_success image_path languages results (elapsed clock w) w).
Proof.
  intros HR Hr He.
  destruct (encodes_run_returns _ _ _ _ _ _ HR Hr He) as [Hre Ht].
  exact (process_image_ocr_returns _ _ _ _ _ _ _ Hre HR Hr Ht).
Qed.

(** C1. Whenever the engine returns a sequence of detections and nothing
    raises ([print] included: the console can encode every line of the
    run), [process_image_ocr] returns the success record, in which
    [individual_texts], [confidence_scores] have the length
    [total_detections], and [text_extracted] is [individual_texts] joined
    with a single space. *)
Theorem C1_success_lengths_and_join
    (image_path languages : str) (w : world)
    (r : reader_t) (results : list detection) :
  Reader easyocr (split comma languages) false = Ret r ->
  readtext easyocr r image_path = Ret results ->
  encodes_run easyocr (console w) image_path languages = true ->
  exists d w' texts scores n,
    process_image_ocr easyocr clock image_path languages w = (Ret d, w') /\
    get d "individual_texts" = Some (VList (map VStr texts)) /\
    get d "confidence_scores" = Some (VList (map VFloat scores)) /\
    get d "total_detections" = Some (VInt n) /\
    len (VList (map VStr texts)) = Some n /\
    len (VList (map VFloat scores)) = Some n /\
    get d "text_extracted" = Some (VStr (join [32%N] texts)) /\
    has_key d "error" = false.
Proof.
  intros HR Hr He.
  eexists _, _, (texts_of results), (scores_of results),
    (Z.of_nat (List.length results)).
  split; [exact (process_image_ocr_succeeds _ _ w r results HR Hr He)|].
  cbn [len]. rewrite !length_map.
  rewrite length_texts_of, length_scores_of.
  repeat split; reflexivity.
Qed.

(** C2 (amended). When the engine is reached and raises an instance of
    [Exception], at its initialization or at its invocation on the image,
    the exception is caught: provided the error line of the handler can be
    written to stdout, [process_image_ocr] returns the failure record, whose
    [error] is the exception's message, [text_extracted] the empty string,
    [confidence_scores] the empty list and [processing_time] 0.  An
    exception of the engine outside [Exception] is not caught: it leaves
    [process_image_ocr], which returns no record. *)
Theorem C2_Exception_caught (image_path languages : str) (w : world) :
  reaches_engine (console w) image_path languages = true ->
  (forall msg,
      engine_raises easyocr image_path languages (PyException msg) ->
      writable (console w) (Progress (ErrorDuring msg)) = true ->
      exists d w',
        process_image_ocr easyocr clock image_path languages w = (Ret d, w') /\
        d = failure msg /\
        get d "error" = Some (VStr msg) /\
        get d "text_extracted" = Some (VStr []) /\
        get d "confidence_scores" = Some (VList []) /\
        get d "processing_time" = Some (VInt 0)) /\
  (forall e,
      engine_raises easyocr image_path languages e ->
      is_Exception e = false ->
      exists w',
        process_image_ocr easyocr clock image_path languages w =
          (Raise e, w')).
Proof.
  intros Hre. split.
  - intros msg [HR|[r [HR Hr]]] Hm; eexists _, _.
    + rewrite (process_image_ocr_Reader_raises _ _ _ _ _ _ Hre HR).
      cbn [handled]. rewrite ocr_except_returns by exact Hm.
      repeat split; reflexivity.
    + rewrite (process_image_ocr_readtext_raises _ _ _ _ _ _ _ Hre HR Hr).
      cbn [handled]. rewrite ocr_except_returns by exact Hm.
      repeat split; reflexivity.
  - intros e [HR|[r [HR Hr]]] He; eexists.
    + rewrite (process_image_ocr_Reader_raises _ _ _ _ _ _ Hre HR).
      destruct e; [discriminate|reflexivity|reflexivity].
    + rewrite (process_image_ocr_readtext_raises _ _ _ _ _ _ _ Hre HR Hr).
      destruct e; [discriminate|reflexivity|reflexivity].
Qed.

(** C3. With fewer than two positional arguments [main] writes one JSON
    object that has an [error] key and no [text_extracted] key, the process
    exits with status 1, and neither the engine nor [process_image_ocr]
    (whose first act is a progress line) has run. *)
Theorem C3_missing_arguments (argv : list str) (w : world) :
  (List.length argv < 3)%nat ->
  exists d w',
    run easyocr clock argv w = (Exit 1, w') /\
    stdout w' = stdout w ++ [Json true d] /\
    has_key d "error" = true /\
    has_key d "text_extracted" = false /\
    get d "error" = Some (VStr usage) /\
    engine_calls w' = engine_calls w /\
    clock_reads w' = clock_reads w.
Proof.
  intros H. eexists _, _. unfold run. rewrite main_few_args by exact H.
  repeat split; reflexivity.
Qed.

(** C4. The success record holds, at every index, the trimmed text and the
    confidence rounded to 3 decimals of the detection at that index of the
    engine's sequence, and [text_extracted] is the single-space join of the
    trimmed texts. *)
Theorem C4_elementwise_transform
    (image_path languages : str) (w : world)
    (r : reader_t) (results : list detection) :
  Reader easyocr (split comma languages) false = Ret r ->
  readtext easyocr r image_path = Ret results ->
  encodes_run easyocr (console w) image_path languages = true ->
  exists d w' texts scores,
    process_image_ocr easyocr clock image_path languages w = (Ret d, w') /\
    get d "individual_texts" = Some (VList (map VStr texts)) /\
    get d "confidence_scores" = Some (VList (map VFloat scores)) /\
    List.length texts = List.length results /\
    List.length scores = List.length results /\
    (forall i b t c,
        nth_error results i = Some (b, t, c) ->
        nth_error texts i = Some (strip t) /\
        nth_error scores i = Some (round c 3)) /\
    get d "text_extracted" =
      Some (VStr (join [32%N] (map (fun det => strip (snd (fst det))) results))).
Proof.
  intros HR Hr He.
  eexists _, _, (texts_of results), (scores_of results).
  split; [exact (process_image_ocr_succeeds _ _ w r results HR Hr He)|].
  split; [reflexivity|]. split; [reflexivity|].
  split; [apply length_texts_of|]. split; [apply length_scores_of|].
  split; [|reflexivity].
  intros i b t c Hi. unfold texts_of, scores_of.
  rewrite !nth_error_map, Hi. split; reflexivity.
Qed.

(** C5 (amended). In every record [process_image_ocr] returns,
    [processing_time] is a number with at most 2 decimal places: the integer
    0 in the failure record, and in the success record the difference of the
    two clock readings, subtracted as doubles and rounded to 2 decimals,
    which is non-negative whenever the second reading is not earlier than
    the first. *)
Theorem C5_processing_time
    (image_path languages : str) (w : world) (d : dict) (w' : world) :
  process_image_ocr easyocr clock image_path languages w = (Ret d, w') ->
  (has_key d "error" = true /\ get d "processing_time" = Some (VInt 0)) \/
  (has_key d "error" = false /\
   exists q,
     let t0 := to_double (clock (clock_reads w)) in
     let t1 := to_double (clock (S (clock_reads w))) in
     get d "processing_time" = Some (VFloat q) /\
     q = round (fsub t1 t0) 2 /\
     has_decimals 2 q /\
     ((t0 <= t1)%Q -> (0 <= q)%Q)).
Proof.
  intros H. apply process_image_ocr_Ret_inv in H.
  destruct H as [(r & results & _ & _ & _ & _ & -> & _)|(msg & -> & _)].
  - right. split; [reflexivity|].
    eexists. cbv zeta. split; [reflexivity|]. split; [reflexivity|].
    split; [apply round_has_decimals|].
    intros Hle. apply round_nonneg. now apply fsub_nonneg.
  - left. now split.
Qed.

(** C6. When every confidence the engine reports lies in [0, 1], every value
    of [confidence_scores] in the success record has at most 3 decimal
    places and lies in [0, 1]. *)
Theorem C6_confidence_scores_rounded_in_unit_interval
    (image_path languages : str) (w : world)
    (r : reader_t) (results : list detection) :
  Reader easyocr (split comma languages) false = Ret r ->
  readtext easyocr r image_path = Ret results ->
  encodes_run easyocr (console w) image_path languages = true ->
  Forall (fun det => 0 <= snd det <= 1)%Q results ->
  exists d w' scores,
    process_image_ocr easyocr clock image_path languages w = (Ret d, w') /\
    get d "confidence_scores" = Some (VList (map VFloat scores)) /\
    Forall (fun s => has_decimals 3 s /\ 0 <= s <= 1)%Q scores.
Proof.
  intros HR Hr He Hc.
  eexists _, _, (scores_of results).
  split; [exact (process_image_ocr_succeeds _ _ w r results HR Hr He)|].
  split; [reflexivity|].
  unfold scores_of. apply Forall_map.
  eapply Forall_impl; [|exact Hc].
  intros det [H0 H1]. split; [apply round_has_decimals|].
  split; [now apply round_nonneg | now apply round_le_1].
Qed.

(** C7 (amended). With at least two positional arguments, whenever the
    engine returns or raises an instance of [Exception] and no other
    exception is raised (the console can encode every line of the run), the
    process writes the JSON record exactly once, of the success or of the
    failure shape, as its last line, serialised without [ensure_ascii] so
    that the non-ASCII code points of its strings are written as they are,
    and exits with status 0.  When the engine is reached and raises an
    exception outside [Exception], the exception leaves [main] uncaught
    ([SystemExit] ending the process with its own status) and no record is
    written. *)
Theorem C7_one_record_then_exit_0
    (prog image_path languages : str) (more : list str) (w : world) :
  (settles easyocr image_path languages = true ->
   encodes_run easyocr (console w) image_path languages = true ->
   exists d w1,
     process_image_ocr easyocr clock image_path languages w = (Ret d, w1) /\
     run easyocr clock (prog :: image_path :: languages :: more) w =
       (Exit 0, emitted d w1) /\
     stdout (emitted d w1) = stdout w1 ++ [Json false d] /\
     json_lines (stdout (emitted d w1)) =
       json_lines (stdout w) ++ [(false, d)] /\
     (keys d = success_keys \/ keys d = failure_keys) /\
     filter non_ascii (chars_of (dumps false d)) =
       filter non_ascii (List.concat (dict_strings d))) /\
  (forall e,
      reaches_engine (console w) image_path languages = true ->
      engine_raises easyocr image_path languages e ->
      is_Exception e = false ->
      exists w',
        run easyocr clock (prog :: image_path :: languages :: more) w =
          (match e with SystemExit code => Exit code | _ => Uncaught e end,
           w') /\
        json_lines (stdout w') = json_lines (stdout w)).
Proof.
  split.
  - intros Hs He.
    assert (Hd : exists d w1,
               process_image_ocr easyocr clock image_path languages w =
                 (Ret d, w1) /\
               (keys d = success_keys \/ keys d = failure_keys)).
    { unfold settles in Hs. unfold encodes_run in He.
      apply andb_prop in He. destruct He as [Hre He].
      destruct (Reader easyocr (split comma languages) false) as [r|e] eqn:HR.
      - destruct (readtext easyocr r image_path) as [results|e] eqn:Hr.
        + eexists _, _.
          split; [exact (process_image_ocr_returns _ _ _ _ _ _ _ Hre HR Hr He)|].
          now left.
        + destruct e as [msg| |code]; try discriminate.
          exists (failure msg), (reported msg (after_readtext_raise image_path languages w)).
          split; [|now right].
          rewrite (process_image_ocr_readtext_raises _ _ _ _ _ _ _ Hre HR Hr).
          cbn [handled]. now rewrite ocr_except_returns by exact He.
      - destruct e as [msg| |code]; try discriminate.
        exists (failure msg), (reported msg (after_Reader_raise image_path languages w)).
        split; [|now right].
        rewrite (process_image_ocr_Reader_raises _ _ _ _ _ _ Hre HR).
        cbn [handled]. now rewrite ocr_except_returns by exact He. }
    destruct Hd as (d & w1 & Hp & Hk). exists d, w1.
    split; [exact Hp|]. split; [now rewrite run_args, Hp|].
    split; [reflexivity|]. split; [|split; [exact Hk|apply dumps_literal]].
    pose proof (process_image_ocr_extends easyocr clock image_path languages w)
      as Hx.
    rewrite Hp in Hx. apply extends_json_lines in Hx. cbn [snd] in Hx.
    unfold emitted, wrote. cbn [stdout].
    now rewrite json_lines_app, Hx.
  - intros e Hre Hr He.
    pose proof (process_image_ocr_extends easyocr clock image_path languages w)
      as Hx.
    assert (Hp : exists w',
               process_image_ocr easyocr clock image_path languages w =
                 (Raise e, w')).
    { destruct Hr as [HR|[r [HR Hr]]]; eexists.
      - rewrite (process_image_ocr_Reader_raises _ _ _ _ _ _ Hre HR).
        destruct e; [discriminate|reflexivity|reflexivity].
      - rewrite (process_image_ocr_readtext_raises _ _ _ _ _ _ _ Hre HR Hr).
        destruct e; [discriminate|reflexivity|reflexivity]. }
    destruct Hp as (w' & Hp). exists w'.
    rewrite Hp in Hx. apply extends_json_lines in Hx. cbn [snd] in Hx.
    split; [|exact Hx]. rewrite run_args, Hp.
    destruct e; [discriminate|reflexivity|reflexivity].
Qed.

(** C8. When the engine returns no detection and nothing raises, the record
    is the success record with [total_detections] 0, [text_extracted] the
    empty string and [individual_texts] the empty list; it is the one JSON
    line written, and the process exits with status 0. *)
Theorem C8_no_detection
    (prog image_path languages : str) (more : list str) (w : world)
    (r : reader_t) :
  Reader easyocr (split comma languages) false = Ret r ->
  readtext easyocr r image_path = Ret [] ->
  encodes_run easyocr (console w) image_path languages = true ->
  exists d w1 w',
    process_image_ocr easyocr clock image_path languages w = (Ret d, w1) /\
    run easyocr clock (prog :: image_path :: languages :: more) w = (Exit 0, w') /\
    json_lines (stdout w') = json_lines (stdout w) ++ [(false, d)] /\
    get d "total_detections" = Some (VInt 0) /\
    get d "text_extracted" = Some (VStr []) /\
    get d "individual_texts" = Some (VList []) /\
    has_key d "error" = false.
Proof.
  intros HR Hr He.
  pose proof (process_image_ocr_succeeds image_path languages w
                r [] HR Hr He) as Hp.
  eexists _, _, _. split; [exact Hp|].
  split; [rewrite run_args, Hp; reflexivity|].
  split; [|repeat split; reflexivity].
  json_lines_norm.
Qed.

(** C9. Two argument vectors with at least two positional arguments each
    that agree on the first two make [main] do the same: the same call of
    [process_image_ocr], the same output, the same end of the process. *)
Theorem C9_extra_arguments_ignored (argv1 argv2 : list str) (w : world) :
  (3 <= List.length argv1)%nat ->
  (3 <= List.length argv2)%nat ->
  nth_error argv1 1 = nth_error argv2 1 ->
  nth_error argv1 2 = nth_error argv2 2 ->
  main easyocr clock argv1 w = main easyocr clock argv2 w /\
  run easyocr clock argv1 w = run easyocr clock argv2 w /\
  exists image_path languages,
    nth_error argv1 1 = Some image_path /\
    nth_error argv1 2 = Some languages /\
    main easyocr clock argv1 =
      (result <- process_image_ocr easyocr clock image_path languages ;;
       print (Json false result)).
Proof.
  intros H1 H2 E1 E2.
  destruct (at_least_three _ H1) as (p1 & a1 & b1 & m1 & ->).
  destruct (at_least_three _ H2) as (p2 & a2 & b2 & m2 & ->).
  simpl in E1, E2. injection E1 as <-. injection E2 as <-.
  unfold run. rewrite !main_args.
  split; [reflexivity|]. split; [reflexivity|].
  now exists a1, b1.
Qed.

(** C10 (amended). The languages argument reaches the engine unvalidated as
    its comma-split: for every languages string [s], whenever the two
    progress lines printed before the initialization can be written to
    stdout, which is so on every console when the image path and [s] are
    ASCII, the first engine call is the initialization with exactly
    [s.split(',')].  The list is never empty; the empty string gives the
    list of the empty string alone, and two adjacent commas give an empty
    code. *)
Theorem C10_languages_split_unvalidated
    (image_path s : str) (w : world) :
  (reaches_engine (console w) image_path s = true ->
   exists rest,
     engine_calls (snd (process_image_ocr easyocr clock image_path s w)) =
     engine_calls w ++ CallReader (split 44%N s) false :: rest) /\
  (filter non_ascii image_path = [] -> filter non_ascii s = [] ->
   reaches_engine (console w) image_path s = true) /\
  (exists code codes, split 44%N s = code :: codes) /\
  join [44%N] (split 44%N s) = s /\
  split 44%N [] = [[]] /\
  (forall a b, In [] (split 44%N (a ++ 44%N :: 44%N :: b))).
Proof.
  split.
  { intros Hre. rewrite engine_calls_after, Hre. now eexists. }
  split.
  { intros Hp Hs. unfold reaches_engine.
    now rewrite writable_ascii_path, writable_ascii_languages. }
  split.
  { pose proof (split_not_nil 44%N s) as H.
    destruct (split 44%N s) as [|code codes]; [congruence|].
    now exists code, codes. }
  split; [apply join_split|].
  split; [reflexivity|].
  intros a b. rewrite split_app_sep. apply in_or_app. right.
  cbn [split]. rewrite N.eqb_refl. now left.
Qed.

End Claims.

(** ** The properties on the sample environments *)

Lemma C1_on_sample :
  Reader Sample.reading (split comma Sample.languages) false = Ret tt /\
  readtext Sample.reading tt Sample.image_path = Ret Sample.detections /\
  encodes_run Sample.reading (console start)
    Sample.image_path Sample.languages = true /\
  exists d w' texts scores n,
    process_image_ocr Sample.reading Sample.clock
      Sample.image_path Sample.languages start = (Ret d, w') /\
    get d "individual_texts" = Some (VList (map VStr texts)) /\
    get d "confidence_scores" = Some (VList (map VFloat scores)) /\
    get d "total_detections" = Some (VInt n) /\
    len (VList (map VStr texts)) = Some n /\
    len (VList (map VFloat scores)) = Some n /\
    get d "text_extracted" = Some (VStr (join [32%N] texts)) /\
    has_key d "error" = false.
Proof.
  split; [reflexivity|]. split; [reflexivity|]. split; [reflexivity|].
  apply (C1_success_lengths_and_join Sample.reading Sample.clock
           Sample.image_path Sample.languages start tt Sample.detections);
    reflexivity.
Defined.

Lemma C2_on_sample :
  reaches_engine (console start) Sample.image_path Sample.languages = true /\
  (engine_raises Sample.missing_file Sample.image_path Sample.languages
     (PyException (lit "No such file: scan.png")) /\
   writable (console start)
     (Progress (ErrorDuring (lit "No such file: scan.png"))) = true /\
   exists d w',
     process_image_ocr Sample.missing_file Sample.clock
       Sample.image_path Sample.languages start = (Ret d, w') /\
     d = failure (lit "No such file: scan.png") /\
     get d "error" = Some (VStr (lit "No such file: scan.png")) /\
     get d "text_extracted" = Some (VStr []) /\
     get d "confidence_scores" = Some (VList []) /\
     get d "processing_time" = Some (VInt 0)) /\
  (engine_raises Sample.interrupted Sample.image_path Sample.languages
     KeyboardInterrupt /\
   is_Exception KeyboardInterrupt = false /\
   exists w',
     process_image_ocr Sample.interrupted Sample.clock
       Sample.image_path Sample.languages start =
       (Raise KeyboardInterrupt, w')).
Proof.
  assert (Hre : reaches_engine (console start)
                  Sample.image_path Sample.languages = true) by reflexivity.
  assert (H : engine_raises Sample.missing_file Sample.image_path
                Sample.languages (PyException (lit "No such file: scan.png"))).
  { right. exists tt. split; reflexivity. }
  assert (Hi : engine_raises Sample.interrupted Sample.image_path
                 Sample.languages KeyboardInterrupt).
  { left. reflexivity. }
  split; [exact Hre|]. split.
  - split; [exact H|]. split; [reflexivity|].
    exact (proj1 (C2_Exception_caught Sample.missing_file Sample.clock
                    Sample.image_path Sample.languages start Hre)
             _ H eq_refl).
  - split; [exact Hi|]. split; [reflexivity|].
    exact (proj2 (C2_Exception_caught Sample.interrupted Sample.clock
                    Sample.image_path Sample.languages start Hre)
             KeyboardInterrupt Hi eq_refl).
Defined.

(** C2 as stated fails: [KeyboardInterrupt] raised while the engine is
    initialized is an exception that [process_image_ocr] does not catch; no
    record is returned. *)
Lemma C2_KeyboardInterrupt_escapes :
  engine_raises Sample.interrupted Sample.image_path Sample.languages
    KeyboardInterrupt /\
  fst (process_image_ocr Sample.interrupted Sample.clock
         Sample.image_path Sample.languages start) = Raise KeyboardInterrupt /\
  ~ exists d w',
      process_image_ocr Sample.interrupted Sample.clock
        Sample.image_path Sample.languages start = (Ret d, w').
Proof.
  split; [left; reflexivity|]. split; [reflexivity|].
  intros (d & w' & H). discriminate H.
Qed.

Lemma C3_on_sample :
  (List.length [Sample.prog; Sample.image_path] < 3)%nat /\
  exists d w',
    run Sample.reading Sample.clock [Sample.prog; Sample.image_path] start =
      (Exit 1, w') /\
    stdout w' = stdout start ++ [Json true d] /\
    has_key d "error" = true /\
    has_key d "text_extracted" = false /\
    get d "error" = Some (VStr usage) /\
    engine_calls w' = engine_calls start /\
    clock_reads w' = clock_reads start.
Proof.
  split; [simpl; lia|].
  apply (C3_missing_arguments Sample.reading Sample.clock
           [Sample.prog; Sample.image_path] start).
  simpl; lia.
Defined.

Lemma C4_on_sample :
  Reader Sample.reading (split comma Sample.languages) false = Ret tt /\
  readtext Sample.reading tt Sample.image_path = Ret Sample.detections /\
  encodes_run Sample.reading (console start)
    Sample.image_path Sample.languages = true /\
  exists d w' texts scores,
    process_image_ocr Sample.reading Sample.clock
      Sample.image_path Sample.languages start = (Ret d, w') /\
    get d "individual_texts" = Some (VList (map VStr texts)) /\
    get d "confidence_scores" = Some (VList (map VFloat scores)) /\
    List.length texts = List.length Sample.detections /\
    List.length scores = List.length Sample.detections /\
    (forall i b t c,
        nth_error Sample.detections i = Some (b, t, c) ->
        nth_error texts i = Some (strip t) /\
        nth_error scores i = Some (round c 3)) /\
    get d "text_extracted" =
      Some (VStr (join [32%N]
                    (map (fun det => strip (snd (fst det))) Sample.detections))).
Proof.
  split; [reflexivity|]. split; [reflexivity|]. split; [reflexivity|].
  apply (C4_elementwise_transform Sample.reading Sample.clock
           Sample.image_path Sample.languages start tt Sample.detections);
    reflexivity.
Defined.

Lemma C5_on_sample :
  exists d w',
    process_image_ocr Sample.reading Sample.clock_short
      Sample.image_path Sample.languages start = (Ret d, w') /\
    ((has_key d "error" = true /\ get d "processing_time" = Some (VInt 0)) \/
     (has_key d "error" = false /\
      exists q,
        let t0 := to_double (Sample.clock_short 0) in
        let t1 := to_double (Sample.clock_short 1) in
        get d "processing_time" = Some (VFloat q) /\
        q = round (fsub t1 t0) 2 /\
        has_decimals 2 q /\
        ((t0 <= t1)%Q -> (0 <= q)%Q))).
Proof.
  eexists _, _. split; [vm_compute; reflexivity|].
  eapply (C5_processing_time Sample.reading Sample.clock_short
            Sample.image_path Sample.languages start).
  vm_compute. reflexivity.
Defined.

(** C5 as stated fails: [time.time()] is the wall clock; when it is set back
    between the two readings the success record has a negative
    [processing_time]. *)
Lemma C5_clock_set_back_negative :
  exists d w',
    process_image_ocr Sample.blank Sample.clock_set_back
      Sample.image_path Sample.languages start = (Ret d, w') /\
    has_key d "error" = false /\
    get d "processing_time" = Some (VFloat ((-500) # 100)) /\
    ((-500) # 100 < 0)%Q.
Proof.
  eexists _, _. split; [vm_compute; reflexivity|]. repeat split; reflexivity.
Qed.

Lemma C6_on_sample :
  Reader Sample.reading (split comma Sample.languages) false = Ret tt /\
  readtext Sample.reading tt Sample.image_path = Ret Sample.detections /\
  encodes_run Sample.reading (console start)
    Sample.image_path Sample.languages = true /\
  Forall (fun det => 0 <= snd det <= 1)%Q Sample.detections /\
  exists d w' scores,
    process_image_ocr Sample.reading Sample.clock
      Sample.image_path Sample.languages start = (Ret d, w') /\
    get d "confidence_scores" = Some (VList (map VFloat scores)) /\
    Forall (fun s => has_decimals 3 s /\ 0 <= s <= 1)%Q scores.
Proof.
  assert (Hc : Forall (fun det => 0 <= snd det <= 1)%Q Sample.detections).
  { repeat constructor; simpl; unfold Qle; simpl; lia. }
  split; [reflexivity|]. split; [reflexivity|]. split; [reflexivity|].
  split; [exact Hc|].
  apply (C6_confidence_scores_rounded_in_unit_interval
           Sample.reading Sample.clock
           Sample.image_path Sample.languages start tt Sample.detections);
    [reflexivity|reflexivity|reflexivity|exact Hc].
Defined.

Lemma C7_on_sample :
  (settles Sample.missing_file Sample.image_path Sample.languages = true /\
   encodes_run Sample.missing_file (console start)
     Sample.image_path Sample.languages = true /\
   exists d w1,
     process_image_ocr Sample.missing_file Sample.clock
       Sample.image_path Sample.languages start = (Ret d, w1) /\
     run Sample.missing_file Sample.clock Sample.argv start =
       (Exit 0, emitted d w1) /\
     stdout (emitted d w1) = stdout w1 ++ [Json false d] /\
     json_lines (stdout (emitted d w1)) =
       json_lines (stdout start) ++ [(false, d)] /\
     (keys d = success_keys \/ keys d = failure_keys) /\
     filter non_ascii (chars_of (dumps false d)) =
       filter non_ascii (List.concat (dict_strings d))) /\
  (reaches_engine (console start) Sample.image_path Sample.languages = true /\
   engine_raises Sample.interrupted Sample.image_path Sample.languages
     KeyboardInterrupt /\
   is_Exception KeyboardInterrupt = false /\
   exists w',
     run Sample.interrupted Sample.clock Sample.argv start =
       (Uncaught KeyboardInterrupt, w') /\
     json_lines (stdout w') = json_lines (stdout start)).
Proof.
  assert (Hi : engine_raises Sample.interrupted Sample.image_path
                 Sample.languages KeyboardInterrupt).
  { left. reflexivity. }
  split.
  - split; [reflexivity|]. split; [reflexivity|].
    exact (proj1 (C7_one_record_then_exit_0 Sample.missing_file Sample.clock
                    Sample.prog Sample.image_path Sample.languages [] start)
             eq_refl eq_refl).
  - split; [reflexivity|]. split; [exact Hi|]. split; [reflexivity|].
    exact (proj2 (C7_one_record_then_exit_0 Sample.interrupted Sample.clock
                    Sample.prog Sample.image_path Sample.languages [] start)
             KeyboardInterrupt eq_refl Hi eq_refl).
Defined.

(** C7 as stated fails: with two positional arguments and the engine
    interrupted, the exception leaves [main] uncaught; the process writes no
    JSON record and does not exit with status 0. *)
Lemma C7_KeyboardInterrupt_no_record :
  (3 <= List.length Sample.argv)%nat /\
  (exists w',
      run Sample.interrupted Sample.clock Sample.argv start =
        (Uncaught KeyboardInterrupt, w') /\
      json_lines (stdout w') = []) /\
  ~ exists w',
      run Sample.interrupted Sample.clock Sample.argv start = (Exit 0, w').
Proof.
  split; [simpl; lia|]. split.
  - eexists. split; reflexivity.
  - intros (w' & H). discriminate H.
Qed.

Lemma C8_on_sample :
  Reader Sample.blank (split comma Sample.languages) false = Ret tt /\
  readtext Sample.blank tt Sample.image_path = Ret [] /\
  encodes_run Sample.blank (console start)
    Sample.image_path Sample.languages = true /\
  exists d w1 w',
    process_image_ocr Sample.blank Sample.clock
      Sample.image_path Sample.languages start = (Ret d, w1) /\
    run Sample.blank Sample.clock
      (Sample.prog :: Sample.image_path :: Sample.languages :: []) start =
      (Exit 0, w') /\
    json_lines (stdout w') = json_lines (stdout start) ++ [(false, d)] /\
    get d "total_detections" = Some (VInt 0) /\
    get d "text_extracted" = Some (VStr []) /\
    get d "individual_texts" = Some (VList []) /\
    has_key d "error" = false.
Proof.
  split; [reflexivity|]. split; [reflexivity|]. split; [reflexivity|].
  apply (C8_no_detection Sample.blank Sample.clock Sample.prog
           Sample.image_path Sample.languages [] start tt);
    reflexivity.
Defined.

Lemma C9_on_sample :
  let argv2 := Sample.argv ++ [lit "--gpu"; lit "x"] in
  (3 <= List.length Sample.argv)%nat /\
  (3 <= List.length argv2)%nat /\
  nth_error Sample.argv 1 = nth_error argv2 1 /\
  nth_error Sample.argv 2 = nth_error argv2 2 /\
  main Sample.reading Sample.clock Sample.argv start =
    main Sample.reading Sample.clock argv2 start /\
  run Sample.reading Sample.clock Sample.argv start =
    run Sample.reading Sample.clock argv2 start /\
  exists image_path languages,
    nth_error Sample.argv 1 = Some image_path /\
    nth_error Sample.argv 2 = Some languages /\
    main Sample.reading Sample.clock Sample.argv =
      (result <- process_image_ocr Sample.reading Sample.clock
                   image_path languages ;;
       print (Json false result)).
Proof.
  intros argv2.
  assert (H1 : (3 <= List.length Sample.argv)%nat) by (simpl; lia).
  assert (H2 : (3 <= List.length argv2)%nat) by (simpl; lia).
  split; [exact H1|]. split; [exact H2|].
  split; [reflexivity|]. split; [reflexivity|].
  exact (C9_extra_arguments_ignored Sample.reading Sample.clock
           Sample.argv argv2 start H1 H2 eq_refl eq_refl).
Defined.

Lemma C10_on_sample :
  (reaches_engine (console start) Sample.image_path Sample.languages = true /\
   exists rest,
     engine_calls
       (snd (process_image_ocr Sample.reading Sample.clock
               Sample.image_path Sample.languages start)) =
     engine_calls start ++
     CallReader (split 44%N Sample.languages) false :: rest) /\
  (filter non_ascii Sample.image_path = [] /\
   filter non_ascii Sample.languages = [] /\
   reaches_engine (console (start_on ascii_only))
     Sample.image_path Sample.languages = true).
Proof.
  split.
  - split; [reflexivity|].
    exact (proj1 (C10_languages_split_unvalidated Sample.reading Sample.clock
                    Sample.image_path Sample.languages start) eq_refl).
  - split; [reflexivity|]. split; [reflexivity|].
    exact (proj1 (proj2 (C10_languages_split_unvalidated
                           Sample.reading Sample.clock
                           Sample.image_path Sample.languages
                           (start_on ascii_only)))
             eq_refl eq_refl).
Defined.

(** C10 as stated fails: on a console that encodes ASCII only, the languages
    string [é] makes the [print] of the language list raise before the
    engine is initialized; the engine is never called and the failure
    record is returned. *)
Lemma C10_engine_not_reached :
  let w := start_on ascii_only in
  let out := process_image_ocr Sample.reading Sample.clock
               Sample.image_path Sample.e_acute w in
  engine_calls (snd out) = [] /\
  fst out =
    Ret (failure (encode_error ascii_only
                    (Progress (Initializing (split 44%N Sample.e_acute))))) /\
  ~ exists rest,
      engine_calls (snd out) =
      engine_calls w ++ CallReader (split 44%N Sample.e_acute) false :: rest.
Proof.
  cbv zeta. split; [reflexivity|]. split; [reflexivity|].
  intros (rest & H). discriminate H.
Qed.

Example split_samples :
  split 44%N (lit "en,ja") = [lit "en"; lit "ja"] /\
  split 44%N (lit "en") = [lit "en"] /\
  split 44%N (lit "") = [lit ""] /\
  split 44%N (lit "en,,ja") = [lit "en"; lit ""; lit "ja"] /\
  split 44%N (lit ",en,") = [lit ""; lit "en"; lit ""].
Proof. repeat split; reflexivity. Qed.

Example strip_samples :
  strip (lit "  Hello ") = lit "Hello" /\
  strip (Sample.konnichiwa ++ lit " ") = Sample.konnichiwa /\
  strip (lit "a b") = lit "a b" /\
  strip [12288; 97; 160]%N = lit "a" /\
  strip (lit "   ") = lit "".
Proof. repeat split; reflexivity. Qed.

Example sample_failure_record :
  fst (process_image_ocr Sample.bad_language Sample.clock
         Sample.image_path Sample.languages start) =
  Ret [("error"%string, VStr (lit "('xx', 'is not supported')"));
       ("text_extracted"%string, VStr (lit ""));
       ("confidence_scores"%string, VList []);
       ("processing_time"%string, VInt 0)].
Proof. reflexivity. Qed.

Example sample_record :
  fst (process_image_ocr Sample.reading Sample.clock
         Sample.image_path Sample.languages start) =
  Ret [("text_extracted"%string,
         VStr (lit "Hello " ++ Sample.konnichiwa));
       ("individual_texts"%string,
         VList [VStr (lit "Hello"); VStr Sample.konnichiwa]);
       ("confidence_scores"%string,
         VList [VFloat (988 # 1000); VFloat (500 # 1000)]);
       ("processing_time"%string, VFloat (235 # 100));
       ("total_detections"%string, VInt 2)].
Proof. vm_compute. reflexivity. Qed.

(** * Further properties of the script *)

Section Extras.

Context {reader_t : Type}.
Variable easyocr : Engine reader_t.
Variable clock : nat -> float.

(** X1. Each entry of [individual_texts] is the text of its detection with
    white space removed at the two ends and nothing else: the text is the
    entry between two runs of white space, the entry neither starts nor ends
    with white space, and stripping it again changes nothing. *)
Theorem X1_individual_texts_trimmed
    (image_path languages : str) (w : world)
    (r : reader_t) (results : list detection) :
  Reader easyocr (split comma languages) false = Ret r ->
  readtext easyocr r image_path = Ret results ->
  encodes_run easyocr (console w) image_path languages = true ->
  exists d w' texts,
    process_image_ocr easyocr clock image_path languages w = (Ret d, w') /\
    get d "individual_texts" = Some (VList (map VStr texts)) /\
    forall i b t c,
      nth_error results i = Some (b, t, c) ->
      exists s p q,
        nth_error texts i = Some s /\
        t = p ++ s ++ q /\
        forallb isspace p = true /\ forallb isspace q = true /\
        starts_with_space s = false /\ ends_with_space s = false /\
        strip s = s.
Proof.
  intros HR Hr He. eexists _, _, (texts_of results).
  split; [exact (process_image_ocr_succeeds _ _ _ _ w r results HR Hr He)|].
  split; [reflexivity|].
  intros i b t c Hi.
  destruct (strip_decompose t) as (p & q & Ht & Hp & Hq).
  destruct (strip_no_outer_space t) as [Hs Hend].
  exists (strip t), p, q.
  unfold texts_of. rewrite nth_error_map, Hi.
  repeat split; try assumption. apply strip_idem.
Qed.

(** X2. Whenever [process_image_ocr] returns a record, of either shape,
    [main] can print it: the code points above ASCII of the record were
    written before in a progress line, so the console encodes them, and the
    process writes the record and exits with status 0. *)
Theorem X2_returned_record_is_printed
    (prog image_path languages : str) (more : list str)
    (w : world) (d : dict) (w1 : world) :
  process_image_ocr easyocr clock image_path languages w = (Ret d, w1) ->
  writable (console w1) (Json false d) = true /\
  run easyocr clock (prog :: image_path :: languages :: more) w =
    (Exit 0, emitted d w1) /\
  stdout (emitted d w1) = stdout w1 ++ [Json false d].
Proof.
  intros Hp. split; [exact (returned_record_writable _ _ _ _ _ _ _ Hp)|].
  split; [now rewrite run_args, Hp|reflexivity].
Qed.

(** X3. Rounding keeps the order of the confidences: a detection the engine
    did not rate above another is not scored above it in the record. *)
Theorem X3_scores_keep_order
    (image_path languages : str) (w : world)
    (r : reader_t) (results : list detection) :
  Reader easyocr (split comma languages) false = Ret r ->
  readtext easyocr r image_path = Ret results ->
  encodes_run easyocr (console w) image_path languages = true ->
  exists d w' scores,
    process_image_ocr easyocr clock image_path languages w = (Ret d, w') /\
    get d "confidence_scores" = Some (VList (map VFloat scores)) /\
    forall i j bi ti ci bj tj cj,
      nth_error results i = Some (bi, ti, ci) ->
      nth_error results j = Some (bj, tj, cj) ->
      (ci <= cj)%Q ->
      exists si sj,
        nth_error scores i = Some si /\ nth_error scores j = Some sj /\
        (si <= sj)%Q.
Proof.
  intros HR Hr He. eexists _, _, (scores_of results).
  split; [exact (process_image_ocr_succeeds _ _ _ _ w r results HR Hr He)|].
  split; [reflexivity|].
  intros i j bi ti ci bj tj cj Hi Hj Hle.
  exists (round ci 3), (round cj 3).
  unfold scores_of. rewrite !nth_error_map, Hi, Hj.
  split; [reflexivity|]. split; [reflexivity|]. now apply round_mono.
Qed.

(** X4. [process_image_ocr] calls the engine in one order: nothing when one
    of the two progress lines before the initialization cannot be written
    to stdout; otherwise [Reader] once, with [gpu=False], then [readtext]
    once on the image path as given, and only if [Reader] returned. *)
Theorem X4_engine_calls (image_path languages : str) (w : world) :
  engine_calls
    (snd (process_image_ocr easyocr clock image_path languages w)) =
  engine_calls w ++
  (if reaches_engine (console w) image_path languages then
     CallReader (split comma languages) false ::
     match Reader easyocr (split comma languages) false with
     | Ret _ => [CallReadtext image_path]
     | Raise _ => []
     end
   else []).
Proof.
  unfold process_image_ocr, try_except_Exception.
  destruct (ocr_try_cases easyocr clock image_path languages w)
    as [(r & results & Hre & HR & Hr & Ht & ->)|(e & w0 & -> & _ & _ & Hc)].
  - cbn [snd after_success engine_calls]. now rewrite Hre, HR.
  - rewrite <- Hc. destruct e as [msg| |code]; try reflexivity.
    apply ocr_except_engine_calls.
Qed.

(** X5. An image path that stdout cannot encode never reaches the engine:
    the first [print] raises inside the [try], no engine call is made and
    the clock is not read; when the error line can be written, the failure
    record is returned with the message of the encoding error. *)
Theorem X5_unencodable_path (image_path languages : str) (w : world) :
  writable (console w) (Progress (Starting image_path)) = false ->
  let msg := encode_error (console w) (Progress (Starting image_path)) in
  writable (console w) (Progress (ErrorDuring msg)) = true ->
  exists w',
    process_image_ocr easyocr clock image_path languages w =
      (Ret (failure msg), w') /\
    engine_calls w' = engine_calls w /\
    clock_reads w' = clock_reads w /\
    stdout w' = stdout w ++ [Progress (ErrorDuring msg)].
Proof.
  intros HS msg Hm. eexists.
  unfold process_image_ocr, try_except_Exception, ocr_try, bind.
  rewrite print_raises by exact HS. fold msg.
  rewrite ocr_except_returns by exact Hm. repeat split; reflexivity.
Qed.

(** X6. A record without the [error] key has the five keys of the success
    record and comes from a run in which the engine returned and every
    line was written; a record with the [error] key has the four keys of
    the failure record, without [individual_texts] and [total_detections]. *)
Theorem X6_record_shape
    (image_path languages : str) (w : world) (d : dict) (w' : world) :
  process_image_ocr easyocr clock image_path languages w = (Ret d, w') ->
  (has_key d "error" = false /\ keys d = success_keys /\
   exists r results,
     Reader easyocr (split comma languages) false = Ret r /\
     readtext easyocr r image_path = Ret results /\
     get d "total_detections" = Some (VInt (Z.of_nat (List.length results))) /\
     encodes_run easyocr (console w) image_path languages = true) \/
  (has_key d "error" = true /\ keys d = failure_keys /\
   has_key d "individual_texts" = false /\
   has_key d "total_detections" = false).
Proof.
  intros H. apply process_image_ocr_Ret_inv in H.
  destruct H as [(r & results & Hre & HR & Hr & Ht & -> & _)|(msg & -> & _)].
  - left. split; [reflexivity|]. split; [reflexivity|].
    exists r, results. split; [exact HR|]. split; [exact Hr|].
    split; [reflexivity|].
    unfold encodes_run. now rewrite Hre, HR, Hr.
  - right. repeat split.
Qed.

(** X7. The text [json.dumps] writes for a record, with or without
    [ensure_ascii], holds no code point below U+0020: line feeds and the
    other control characters of a detected text are escaped, so the record
    [main] prints stays on one line. *)
Theorem X7_json_record_on_one_line (ensure_ascii : bool) (d : dict) :
  forallb no_control (chars_of (dumps ensure_ascii d)) = true /\
  ~ In 10%N (chars_of (dumps ensure_ascii d)) /\
  ~ In 13%N (chars_of (dumps ensure_ascii d)).
Proof.
  pose proof (dumps_no_control ensure_ascii d) as H.
  rewrite forallb_forall in H.
  split; [now apply forallb_forall|].
  split; intros Hin; apply H in Hin; discriminate.
Qed.

(** X8. In a run that reaches the engine, the language list the engine is
    initialized with has one code more than the languages string has
    commas, and no code holds a comma. *)
Theorem X8_language_codes (image_path languages : str) (w : world) :
  reaches_engine (console w) image_path languages = true ->
  exists codes rest,
    engine_calls
      (snd (process_image_ocr easyocr clock image_path languages w)) =
      engine_calls w ++ CallReader codes false :: rest /\
    List.length codes = S (count_occ N.eq_dec languages 44%N) /\
    Forall (fun code => ~ In 44%N code) codes.
Proof.
  intros Hre. eexists (split comma languages), _.
  split; [rewrite engine_calls_after, Hre; reflexivity|].
  split; [apply length_split|].
  apply Forall_forall. intros code. apply split_no_sep.
Qed.

(** X9. [text_extracted] has the characters of the entries of
    [individual_texts] and one space between two neighbours: its length is
    the sum of their lengths plus the number of detections less one. *)
Theorem X9_text_extracted_length
    (image_path languages : str) (w : world)
    (r : reader_t) (results : list detection) :
  Reader easyocr (split comma languages) false = Ret r ->
  readtext easyocr r image_path = Ret results ->
  encodes_run easyocr (console w) image_path languages = true ->
  exists d w' full texts,
    process_image_ocr easyocr clock image_path languages w = (Ret d, w') /\
    get d "text_extracted" = Some (VStr full) /\
    get d "individual_texts" = Some (VList (map VStr texts)) /\
    List.length full =
      (total_length texts + (List.length results - 1))%nat.
Proof.
  intros HR Hr He. eexists _, _, _, (texts_of results).
  split; [exact (process_image_ocr_succeeds _ _ _ _ w r results HR Hr He)|].
  split; [reflexivity|]. split; [reflexivity|].
  rewrite length_join, length_texts_of. simpl. lia.
Qed.

(** X10. When there is at least one detection and no trimmed text holds a
    space, splitting [text_extracted] at the spaces gives
    [individual_texts] back. *)
Theorem X10_text_extracted_splits_back
    (image_path languages : str) (w : world)
    (r : reader_t) (results : list detection) :
  Reader easyocr (split comma languages) false = Ret r ->
  readtext easyocr r image_path = Ret results ->
  encodes_run easyocr (console w) image_path languages = true ->
  results <> [] ->
  Forall (fun det => ~ In 32%N (strip (snd (fst det)))) results ->
  exists d w' full texts,
    process_image_ocr easyocr clock image_path languages w = (Ret d, w') /\
    get d "text_extracted" = Some (VStr full) /\
    get d "individual_texts" = Some (VList (map VStr texts)) /\
    split 32%N full = texts.
Proof.
  intros HR Hr He Hne Hall. eexists _, _, _, (texts_of results).
  split; [exact (process_image_ocr_succeeds _ _ _ _ w r results HR Hr He)|].
  split; [reflexivity|]. split; [reflexivity|].
  apply split_join.
  - destruct results; [congruence|discriminate].
  - unfold texts_of. apply Forall_map. exact Hall.
Qed.

(** X11. A successful run prints, between the five opening progress lines
    and the line of the total time, one line for each detection, numbered
    from 1 in the engine's order, with the text as the engine gave it, not
    trimmed, and the confidence at 3 decimals, the value of the record. *)
Theorem X11_progress_lines
    (image_path languages : str) (w : world)
    (r : reader_t) (results : list detection) :
  Reader easyocr (split comma languages) false = Ret r ->
  readtext easyocr r image_path = Ret results ->
  encodes_run easyocr (console w) image_path languages = true ->
  exists d w' lines scores time,
    process_image_ocr easyocr clock image_path languages w = (Ret d, w') /\
    stdout w' =
      stdout w ++
      [Progress (Starting image_path);
       Progress (Initializing (split comma languages));
       Progress Initialized; Progress Processing;
       Progress (Completed (List.length results))] ++
      lines ++ [Progress (TotalTime time)] /\
    get d "processing_time" = Some (VFloat time) /\
    get d "confidence_scores" = Some (VList (map VFloat scores)) /\
    List.length lines = List.length results /\
    forall k b t c,
      nth_error results k = Some (b, t, c) ->
      exists s,
        nth_error scores k = Some s /\
        nth_error lines k = Some (Progress (TextLine (k + 1) t s)).
Proof.
  intros HR Hr He.
  eexists _, _, (text_lines 0 results), (scores_of results), _.
  split; [exact (process_image_ocr_succeeds _ _ _ _ w r results HR Hr He)|].
  split; [reflexivity|]. split; [reflexivity|]. split; [reflexivity|].
  split; [apply length_text_lines|].
  intros k b t c Hk. exists (round c 3).
  unfold scores_of. rewrite nth_error_map, Hk.
  split; [reflexivity|]. exact (nth_text_lines results 0 k b t c Hk).
Qed.

(** X12. When the engine is reached and raises an instance of [Exception]
    whose message stdout can encode, the progress lines printed before it
    stay on stdout, two of them when [Reader] raised and four when
    [readtext] did, and one error line with the message follows; the clock
    is not read again. *)
Theorem X12_failure_output
    (image_path languages : str) (w : world) (msg : str) :
  reaches_engine (console w) image_path languages = true ->
  engine_raises easyocr image_path languages (PyException msg) ->
  writable (console w) (Progress (ErrorDuring msg)) = true ->
  exists d w' before,
    process_image_ocr easyocr clock image_path languages w = (Ret d, w') /\
    stdout w' = stdout w ++ before ++ [Progress (ErrorDuring msg)] /\
    clock_reads w' = S (clock_reads w) /\
    ((before =
        [Progress (Starting image_path);
         Progress (Initializing (split comma languages))] /\
      Reader easyocr (split comma languages) false = Raise (PyException msg))
     \/
     (before =
        [Progress (Starting image_path);
         Progress (Initializing (split comma languages));
         Progress Initialized; Progress Processing] /\
      exists r, Reader easyocr (split comma languages) false = Ret r)).
Proof.
  intros Hre [HR|[r [HR Hr]]] Hm; eexists _, _, _.
  - rewrite (process_image_ocr_Reader_raises _ _ _ _ _ _ Hre HR).
    cbn [handled]. rewrite ocr_except_returns by exact Hm.
    split; [reflexivity|].
    unfold reported, wrote, after_Reader_raise. cbn [stdout clock_reads].
    split; [now rewrite <- app_assoc|]. split; [reflexivity|].
    left. now split.
  - rewrite (process_image_ocr_readtext_raises _ _ _ _ _ _ _ Hre HR Hr).
    cbn [handled]. rewrite ocr_except_returns by exact Hm.
    split; [reflexivity|].
    unfold reported, wrote, after_readtext_raise. cbn [stdout clock_reads].
    split; [now rewrite <- app_assoc|]. split; [reflexivity|].
    right. split; [reflexivity|now exists r].
Qed.

(** X13. When the engine is reached and raises an instance of [Exception]
    whose message stdout cannot encode, the [print] of the handler raises
    in its turn: no error line is written, the encoding error leaves
    [process_image_ocr] and [main], and the process ends on the uncaught
    exception without a JSON record. *)
Theorem X13_unencodable_error_message
    (prog image_path languages : str) (more : list str)
    (w : world) (msg : str) :
  reaches_engine (console w) image_path languages = true ->
  engine_raises easyocr image_path languages (PyException msg) ->
  writable (console w) (Progress (ErrorDuring msg)) = false ->
  exists w',
    let e := PyException
               (encode_error (console w) (Progress (ErrorDuring msg))) in
    process_image_ocr easyocr clock image_path languages w = (Raise e, w') /\
    run easyocr clock (prog :: image_path :: languages :: more) w =
      (Uncaught e, w') /\
    ~ In (Progress (ErrorDuring msg)) (skipn (List.length (stdout w)) (stdout w')) /\
    json_lines (stdout w') = json_lines (stdout w).
Proof.
  intros Hre Hr Hm.
  assert (Hp : exists w0 before,
             process_image_ocr easyocr clock image_path languages w =
               (Raise (PyException
                         (encode_error (console w)
                            (Progress (ErrorDuring msg)))), w0) /\
             stdout w0 = stdout w ++ before /\
             ~ In (Progress (ErrorDuring msg)) before).
  { destruct Hr as [HR|[r [HR Hr]]]; eexists _, _.
    - rewrite (process_image_ocr_Reader_raises _ _ _ _ _ _ Hre HR).
      cbn [handled]. rewrite ocr_except_raises by exact Hm.
      split; [reflexivity|]. split; [reflexivity|].
      intros [H|[H|[]]]; discriminate H.
    - rewrite (process_image_ocr_readtext_raises _ _ _ _ _ _ _ Hre HR Hr).
      cbn [handled]. rewrite ocr_except_raises by exact Hm.
      split; [reflexivity|]. split; [reflexivity|].
      intros [H|[H|[H|[H|[]]]]]; discriminate H. }
  destruct Hp as (w0 & before & Hp & Hs & Hn). exists w0. cbv zeta.
  split; [exact Hp|]. split; [now rewrite run_args, Hp|].
  split.
  - rewrite Hs, skipn_app, Nat.sub_diag, skipn_all. exact Hn.
  - pose proof (process_image_ocr_extends easyocr clock image_path languages w)
      as Hx.
    rewrite Hp in Hx. now apply extends_json_lines in Hx.
Qed.

(** X14. A detection whose text stdout cannot encode turns a successful
    recognition into the failure record: the [print] of its progress line
    raises inside the [try], after both engine calls and one reading of the
    clock, and, the console encoding its own error messages, the record
    returned has the [error] key and no [individual_texts]. *)
Theorem X14_unencodable_detection_text
    (image_path languages : str) (w : world)
    (r : reader_t) (results : list detection) :
  reaches_engine (console w) image_path languages = true ->
  Reader easyocr (split comma languages) false = Ret r ->
  readtext easyocr r image_path = Ret results ->
  forallb (fun det => encodable (console w) (snd (fst det))) results = false ->
  (forall l, writable (console w)
               (Progress (ErrorDuring (encode_error (console w) l))) = true) ->
  exists d w',
    process_image_ocr easyocr clock image_path languages w = (Ret d, w') /\
    has_key d "error" = true /\
    has_key d "individual_texts" = false /\
    engine_calls w' =
      engine_calls w ++
      [CallReader (split comma languages) false; CallReadtext image_path] /\
    clock_reads w' = S (clock_reads w).
Proof.
  intros Hre HR Hr Ht Herr.
  destruct (reaches_engine_lines _ _ _ Hre) as [HS HI].
  unfold process_image_ocr, try_except_Exception, ocr_try, bind, time_time,
    easyocr_Reader, reader_readtext, ret.
  rewrite print_writes by exact HS.
  cbn [wrote stdout engine_calls clock_reads console].
  rewrite print_writes by exact HI.
  cbn [wrote stdout engine_calls clock_reads console].
  rewrite HR.
  rewrite print_writes by reflexivity.
  cbn [wrote stdout engine_calls clock_reads console].
  rewrite print_writes by reflexivity.
  cbn [wrote stdout engine_calls clock_reads console].
  rewrite Hr.
  rewrite print_writes by reflexivity.
  cbn [wrote stdout engine_calls clock_reads console].
  match goal with
  | |- context [for_results ?i ?rs ?ts ?cs ?w1] =>
      destruct (for_results_raises rs i ts cs w1 Ht)
        as (l & w0 & Hf & [Hcon _] & Hc & Hk)
  end.
  rewrite Hf.
  assert (Hm : writable (console w0)
                 (Progress (ErrorDuring (encode_error (console w) l))) = true).
  { rewrite Hcon. apply Herr. }
  cbn [console] in Hf.
  rewrite ocr_except_returns by exact Hm.
  eexists _, _. split; [reflexivity|].
  split; [reflexivity|]. split; [reflexivity|].
  unfold reported, wrote. cbn [engine_calls clock_reads].
  rewrite Hc, Hk. unfold wrote. cbn [engine_calls clock_reads].
  split; [now rewrite <- app_assoc|reflexivity].
Qed.

End Extras.

(** ** The further properties on the sample environments *)

Lemma X1_on_sample :
  Reader Sample.reading (split comma Sample.languages) false = Ret tt /\
  readtext Sample.reading tt Sample.image_path = Ret Sample.detections /\
  encodes_run Sample.reading (console start)
    Sample.image_path Sample.languages = true /\
  exists d w' texts,
    process_image_ocr Sample.reading Sample.clock
      Sample.image_path Sample.languages start = (Ret d, w') /\
    get d "individual_texts" = Some (VList (map VStr texts)) /\
    forall i b t c,
      nth_error Sample.detections i = Some (b, t, c) ->
      exists s p q,
        nth_error texts i = Some s /\
        t = p ++ s ++ q /\
        forallb isspace p = true /\ forallb isspace q = true /\
        starts_with_space s = false /\ ends_with_space s = false /\
        strip s = s.
Proof.
  split; [reflexivity|]. split; [reflexivity|]. split; [reflexivity|].
  apply (X1_individual_texts_trimmed Sample.reading Sample.clock
           Sample.image_path Sample.languages start tt Sample.detections);
    reflexivity.
Defined.

Lemma X2_on_sample :
  exists d w1,
    process_image_ocr Sample.reading Sample.clock
      Sample.image_path Sample.languages (start_on ascii_only) = (Ret d, w1) /\
    writable (console w1) (Json false d) = true /\
    run Sample.reading Sample.clock Sample.argv (start_on ascii_only) =
      (Exit 0, emitted d w1) /\
    stdout (emitted d w1) = stdout w1 ++ [Json false d].
Proof.
  eexists _, _. split; [vm_compute; reflexivity|].
  apply (X2_returned_record_is_printed Sample.reading Sample.clock
           Sample.prog Sample.image_path Sample.languages []
           (start_on ascii_only)).
  vm_compute. reflexivity.
Defined.

Lemma X3_on_sample :
  Reader Sample.reading (split comma Sample.languages) false = Ret tt /\
  readtext Sample.reading tt Sample.image_path = Ret Sample.detections /\
  encodes_run Sample.reading (console start)
    Sample.image_path Sample.languages = true /\
  exists d w' scores,
    process_image_ocr Sample.reading Sample.clock
      Sample.image_path Sample.languages start = (Ret d, w') /\
    get d "confidence_scores" = Some (VList (map VFloat scores)) /\
    forall i j bi ti ci bj tj cj,
      nth_error Sample.detections i = Some (bi, ti, ci) ->
      nth_error Sample.detections j = Some (bj, tj, cj) ->
      (ci <= cj)%Q ->
      exists si sj,
        nth_error scores i = Some si /\ nth_error scores j = Some sj /\
        (si <= sj)%Q.
Proof.
  split; [reflexivity|]. split; [reflexivity|]. split; [reflexivity|].
  apply (X3_scores_keep_order Sample.reading Sample.clock
           Sample.image_path Sample.languages start tt Sample.detections);
    reflexivity.
Defined.

Lemma X5_on_sample :
  let msg := encode_error (console start)
               (Progress (Starting Sample.surrogate_path)) in
  writable (console start) (Progress (Starting Sample.surrogate_path)) = false /\
  writable (console start) (Progress (ErrorDuring msg)) = true /\
  exists w',
    process_image_ocr Sample.reading Sample.clock
      Sample.surrogate_path Sample.languages start =
      (Ret (failure msg), w') /\
    engine_calls w' = engine_calls start /\
    clock_reads w' = clock_reads start /\
    stdout w' = stdout start ++ [Progress (ErrorDuring msg)].
Proof.
  cbv zeta. split; [reflexivity|]. split; [reflexivity|].
  exact (X5_unencodable_path Sample.reading Sample.clock
           Sample.surrogate_path Sample.languages start eq_refl eq_refl).
Defined.

Lemma X6_on_sample :
  exists d w',
    process_image_ocr Sample.bad_language Sample.clock
      Sample.image_path Sample.languages start = (Ret d, w') /\
    ((has_key d "error" = false /\ keys d = success_keys /\
      exists r results,
        Reader Sample.bad_language (split comma Sample.languages) false =
          Ret r /\
        readtext Sample.bad_language r Sample.image_path = Ret results /\
        get d "total_detections" =
          Some (VInt (Z.of_nat (List.length results))) /\
        encodes_run Sample.bad_language (console start)
          Sample.image_path Sample.languages = true) \/
     (has_key d "error" = true /\ keys d = failure_keys /\
      has_key d "individual_texts" = false /\
      has_key d "total_detections" = false)).
Proof.
  eexists _, _. split; [reflexivity|].
  eapply (X6_record_shape Sample.bad_language Sample.clock
            Sample.image_path Sample.languages start).
  reflexivity.
Defined.

Lemma X8_on_sample :
  reaches_engine (console start) Sample.image_path Sample.languages = true /\
  exists codes rest,
    engine_calls
      (snd (process_image_ocr Sample.reading Sample.clock
              Sample.image_path Sample.languages start)) =
      engine_calls start ++ CallReader codes false :: rest /\
    List.length codes = S (count_occ N.eq_dec Sample.languages 44%N) /\
    Forall (fun code => ~ In 44%N code) codes.
Proof.
  split; [reflexivity|].
  exact (X8_language_codes Sample.reading Sample.clock
           Sample.image_path Sample.languages start eq_refl).
Defined.

Lemma X9_on_sample :
  Reader Sample.reading (split comma Sample.languages) false = Ret tt /\
  readtext Sample.reading tt Sample.image_path = Ret Sample.detections /\
  encodes_run Sample.reading (console start)
    Sample.image_path Sample.languages = true /\
  exists d w' full texts,
    process_image_ocr Sample.reading Sample.clock
      Sample.image_path Sample.languages start = (Ret d, w') /\
    get d "text_extracted" = Some (VStr full) /\
    get d "individual_texts" = Some (VList (map VStr texts)) /\
    List.length full =
      (total_length texts + (List.length Sample.detections - 1))%nat.
Proof.
  split; [reflexivity|]. split; [reflexivity|]. split; [reflexivity|].
  apply (X9_text_extracted_length Sample.reading Sample.clock
           Sample.image_path Sample.languages start tt Sample.detections);
    reflexivity.
Defined.

Lemma X10_on_sample :
  Reader Sample.reading (split comma Sample.languages) false = Ret tt /\
  readtext Sample.reading tt Sample.image_path = Ret Sample.detections /\
  encodes_run Sample.reading (console start)
    Sample.image_path Sample.languages = true /\
  Sample.detections <> [] /\
  Forall (fun det => ~ In 32%N (strip (snd (fst det)))) Sample.detections /\
  exists d w' full texts,
    process_image_ocr Sample.reading Sample.clock
      Sample.image_path Sample.languages start = (Ret d, w') /\
    get d "text_extracted" = Some (VStr full) /\
    get d "individual_texts" = Some (VList (map VStr texts)) /\
    split 32%N full = texts.
Proof.
  assert (Hne : Sample.detections <> []) by discriminate.
  assert (Hall : Forall (fun det => ~ In 32%N (strip (snd (fst det))))
                   Sample.detections).
  { repeat constructor; vm_compute; intros H;
      repeat (destruct H as [H|H]; [discriminate H|]); exact H. }
  split; [reflexivity|]. split; [reflexivity|]. split; [reflexivity|].
  split; [exact Hne|]. split; [exact Hall|].
  apply (X10_text_extracted_splits_back Sample.reading Sample.clock
           Sample.image_path Sample.languages start tt Sample.detections);
    [reflexivity|reflexivity|reflexivity|exact Hne|exact Hall].
Defined.

Lemma X11_on_sample :
  Reader Sample.reading (split comma Sample.languages) false = Ret tt /\
  readtext Sample.reading tt Sample.image_path = Ret Sample.detections /\
  encodes_run Sample.reading (console start)
    Sample.image_path Sample.languages = true /\
  exists d w' lines scores time,
    process_image_ocr Sample.reading Sample.clock
      Sample.image_path Sample.languages start = (Ret d, w') /\
    stdout w' =
      stdout start ++
      [Progress (Starting Sample.image_path);
       Progress (Initializing (split comma Sample.languages));
       Progress Initialized; Progress Processing;
       Progress (Completed (List.length Sample.detections))] ++
      lines ++ [Progress (TotalTime time)] /\
    get d "processing_time" = Some (VFloat time) /\
    get d "confidence_scores" = Some (VList (map VFloat scores)) /\
    List.length lines = List.length Sample.detections /\
    forall k b t c,
      nth_error Sample.detections k = Some (b, t, c) ->
      exists s,
        nth_error scores k = Some s /\
        nth_error lines k = Some (Progress (TextLine (k + 1) t s)).
Proof.
  split; [reflexivity|]. split; [reflexivity|]. split; [reflexivity|].
  apply (X11_progress_lines Sample.reading Sample.clock
           Sample.image_path Sample.languages start tt Sample.detections);
    reflexivity.
Defined.

Lemma X12_on_sample :
  reaches_engine (console start) Sample.image_path Sample.languages = true /\
  engine_raises Sample.missing_file Sample.image_path Sample.languages
    (PyException (lit "No such file: scan.png")) /\
  writable (console start)
    (Progress (ErrorDuring (lit "No such file: scan.png"))) = true /\
  exists d w' before,
    process_image_ocr Sample.missing_file Sample.clock
      Sample.image_path Sample.languages start = (Ret d, w') /\
    stdout w' =
      stdout start ++ before ++
      [Progress (ErrorDuring (lit "No such file: scan.png"))] /\
    clock_reads w' = S (clock_reads start) /\
    ((before =
        [Progress (Starting Sample.image_path);
         Progress (Initializing (split comma Sample.languages))] /\
      Reader Sample.missing_file (split comma Sample.languages) false =
        Raise (PyException (lit "No such file: scan.png")))
     \/
     (before =
        [Progress (Starting Sample.image_path);
         Progress (Initializing (split comma Sample.languages));
         Progress Initialized; Progress Processing] /\
      exists r,
        Reader Sample.missing_file (split comma Sample.languages) false =
          Ret r)).
Proof.
  assert (H : engine_raises Sample.missing_file Sample.image_path
                Sample.languages (PyException (lit "No such file: scan.png"))).
  { right. exists tt. split; reflexivity. }
  split; [reflexivity|]. split; [exact H|]. split; [reflexivity|].
  exact (X12_failure_output Sample.missing_file Sample.clock
           Sample.image_path Sample.languages start _ eq_refl H eq_refl).
Defined.

Lemma X13_on_sample :
  let w := start_on ascii_only in
  let msg := lit "No such file: " ++ Sample.konnichiwa in
  reaches_engine (console w) Sample.image_path Sample.languages = true /\
  engine_raises Sample.missing_kana_file Sample.image_path Sample.languages
    (PyException msg) /\
  writable (console w) (Progress (ErrorDuring msg)) = false /\
  exists w',
    let e := PyException
               (encode_error (console w) (Progress (ErrorDuring msg))) in
    process_image_ocr Sample.missing_kana_file Sample.clock
      Sample.image_path Sample.languages w = (Raise e, w') /\
    run Sample.missing_kana_file Sample.clock Sample.argv w =
      (Uncaught e, w') /\
    ~ In (Progress (ErrorDuring msg))
        (skipn (List.length (stdout w)) (stdout w')) /\
    json_lines (stdout w') = json_lines (stdout w).
Proof.
  cbv zeta.
  assert (H : engine_raises Sample.missing_kana_file Sample.image_path
                Sample.languages
                (PyException (lit "No such file: " ++ Sample.konnichiwa))).
  { right. exists tt. split; reflexivity. }
  split; [reflexivity|]. split; [exact H|]. split; [reflexivity|].
  exact (X13_unencodable_error_message Sample.missing_kana_file Sample.clock
           Sample.prog Sample.image_path Sample.languages []
           (start_on ascii_only) _ eq_refl H eq_refl).
Defined.

Lemma X14_on_sample :
  let w := start_on ascii_only in
  reaches_engine (console w) Sample.image_path Sample.languages = true /\
  Reader Sample.reading (split comma Sample.languages) false = Ret tt /\
  readtext Sample.reading tt Sample.image_path = Ret Sample.detections /\
  forallb (fun det => encodable (console w) (snd (fst det)))
    Sample.detections = false /\
  (forall l, writable (console w)
               (Progress (ErrorDuring (encode_error (console w) l))) = true) /\
  exists d w',
    process_image_ocr Sample.reading Sample.clock
      Sample.image_path Sample.languages w = (Ret d, w') /\
    has_key d "error" = true /\
    has_key d "individual_texts" = false /\
    engine_calls w' =
      engine_calls w ++
      [CallReader (split comma Sample.languages) false;
       CallReadtext Sample.image_path] /\
    clock_reads w' = S (clock_reads w).
Proof.
  cbv zeta.
  split; [reflexivity|]. split; [reflexivity|]. split; [reflexivity|].
  split; [reflexivity|]. split; [intros l; reflexivity|].
  exact (X14_unencodable_detection_text Sample.reading Sample.clock
           Sample.image_path Sample.languages (start_on ascii_only)
           tt Sample.detections eq_refl eq_refl eq_refl eq_refl
           (fun l => eq_refl)).
Defined.
